(** * LoRaWAN gateway: uplink pipeline ([parseDataUplink] and its helpers)

    A shallow embedding of the gateway package's uplink path and of the
    [node.Node] record it reads, followed by the properties of the
    pipeline.  Go values are modelled as follows.

    - [byte], [uint8], [uint16], [uint32], [int]: [Z], with the wrap-around
      of the fixed-width types written out ([wrap8], [wrap16], [wrap32]).
    - [[]byte]: [list Z].  A slice is represented by its visible elements,
      its capacity being taken equal to its length.
    - [(T, error)] results: pairs whose second component is an
      [option error] ([None] is Go's [nil]).
    - run-time panics and calls that do not come back: the [outcome] type.
    - the calls that leave the package (logger, file system, cipher,
      interpreter, goroutine start) are recorded, in order, in a trace. *)

From Stdlib Require Import List ZArith Lia String Bool Arith.
Import ListNotations.

Local Open Scope string_scope.
Local Open Scope list_scope.
Local Open Scope Z_scope.

(** ** The Go run-time: outcomes, slices, fixed-width integers *)

Module GoRt.

(** What a Go call can do: return, panic with a value (rendered as the text
    that the verb [%s] prints for it), or never come back. *)
Inductive outcome (A : Type) : Type :=
| Ret (a : A)
| Panic (caught : string)
| Diverge.

Arguments Ret {A} a.
Arguments Panic {A} caught.
Arguments Diverge {A}.

(** Go's [error] values, as far as this package builds or forwards them. *)
Inductive error : Type :=
| errors_New (msg : string)
| Errorf_w (prefix : string) (wrapped : error)
| Errorf_s (caught : string)
| lib_error (msg : string).

(** Values of the empty interface [interface{}], by dynamic type. *)
#[local] Set Warnings "-register-all".
Inductive goValue : Type :=
| VNil
| VBool (b : bool)
| VInt64 (n : Z)
| VUint8 (n : Z)
| VString (s : string)
| VBytes (bs : list Z)
| VSlice (vs : list goValue)
| VMap (kvs : list (string * goValue))
| VOther (typeName : string).
#[local] Set Warnings "register-all".

(** [map[string]interface{}]: [None] is the nil map, [Some []] the empty
    map literal. *)
Definition gomap : Type := option (list (string * goValue)).

Definition emptyMap : gomap := Some [].

Definition wrap8 (n : Z) : Z := n mod 256.
Definition wrap16 (n : Z) : Z := n mod 65536.
Definition wrap32 (n : Z) : Z := n mod 4294967296.

Definition is_byte (b : Z) : Prop := 0 <= b < 256.

Definition len {A : Type} (s : list A) : Z := Z.of_nat (List.length s).

(** [s[lo:hi]]: bounds are checked against the capacity. *)
Definition slice (s : list Z) (lo hi : Z) : outcome (list Z) :=
  if (0 <=? lo) && (lo <=? hi) && (hi <=? len s)
  then Ret (firstn (Z.to_nat (hi - lo)) (skipn (Z.to_nat lo) s))
  else Panic "runtime error: slice bounds out of range".

(** [s[i]]. *)
Definition index (s : list Z) (i : Z) : outcome Z :=
  if (0 <=? i) && (i <? len s)
  then Ret (nth (Z.to_nat i) s 0)
  else Panic "runtime error: index out of range".

(** [binary.LittleEndian.Uint16(b)]: [uint16(b[0]) | uint16(b[1])<<8],
    after the bounds check on [b[1]]. *)
Definition LittleEndian_Uint16 (b : list Z) : outcome Z :=
  match index b 1 with
  | Ret b1 => Ret (wrap16 (Z.lor (nth 0 b 0) (Z.shiftl b1 8)))
  | Panic c => Panic c
  | Diverge => Diverge
  end.

(** [bytes.Equal]. *)
Definition bytes_Equal (a b : list Z) : bool :=
  if list_eq_dec Z.eq_dec a b then true else false.

(** *** Calls that leave the package *)

Inductive event : Type :=
| EvInfof (msg : string)
| EvDecryptUplink (key addr : list Z) (fCnt : Z) (payload : list Z)
| EvReadFile (path : string)
| EvOttoNew
| EvOttoSet (name : string) (v : goValue)
| EvGo (what : string)
| EvOttoRun (script : string)
| EvOttoExport.

(** A computation: the calls it made, then how it ended. *)
Definition M (A : Type) : Type := (list event * outcome A)%type.

Definition ret {A : Type} (a : A) : M A := ([], Ret a).

Definition bind {A B : Type} (m : M A) (f : A -> M B) : M B :=
  match m with
  | (t, Ret a) => let (t', r) := f a in (t ++ t', r)
  | (t, Panic c) => (t, Panic c)
  | (t, Diverge) => (t, Diverge)
  end.

Definition lift {A : Type} (o : outcome A) : M A := ([], o).

Definition emit (e : event) : M unit := ([e], Ret tt).

(** [defer func() { if caught := recover(); caught != nil { ... } }()]
    around a body with named results: a panic of the body becomes the
    result that [handler] computes from the caught value. *)
Definition deferRecover {A : Type} (handler : string -> A) (body : M A) : M A :=
  match body with
  | (t, Panic c) => (t, Ret (handler c))
  | other => other
  end.

End GoRt.

Export GoRt.

Declare Scope go_scope.
Delimit Scope go_scope with go.
Notation "x <- m ;; k" := (bind m (fun x => k))
  (at level 61, m at next level, right associativity) : go_scope.
Notation "' p <- m ;; k" := (bind m (fun p => k))
  (at level 61, p pattern, m at next level, right associativity) : go_scope.
Notation "m ;;; k" := (bind m (fun _ => k))
  (at level 61, right associativity) : go_scope.
Local Open Scope go_scope.

(** ** Package node: the registered device *)

Module node.

(** The fields of [node.Node] that hold data ([src/node/node.go]); [Name]
    stands for [Name().Name] of the embedded [resource.Named]. *)
Record Node : Type := mkNode {
  Name : string;
  DecoderPath : string;
  nwkSKey : list Z;
  AppSKey : list Z;
  AppKey : list Z;
  Addr : list Z;
  DevEui : list Z
}.

End node.

(** ** Package crypto (lorawan-stack): the payload cipher *)

Module crypto.

Section Cipher.

(** The block cipher in single-block mode: key, 16-byte block, result. *)
Variable aesEncryptBlock : list Z -> list Z -> list Z.

(** Modelled from the spec: the byte-for-byte XOR of section 4.3, as long
    as the shorter of the two sequences. *)
Fixpoint xorBytes (a b : list Z) : list Z :=
  match a, b with
  | x :: a', y :: b' => Z.lxor x y :: xorBytes a' b'
  | _, _ => []
  end.

(** Modelled from the spec: the four bytes of a 32-bit counter, least
    significant first. *)
Definition le32 (n : Z) : list Z :=
  [ n mod 256; (n / 256) mod 256; (n / 65536) mod 256; (n / 16777216) mod 256 ].

(** Modelled from the spec: the 16-byte counter block of section 4.3, which
    is not in the repository.  It holds the direction tag, the device
    address, the frame counter and the block index. *)
Definition counterBlock (dir : Z) (addr : list Z) (fCnt : Z) (i : nat) : list Z :=
  [1; 0; 0; 0; 0; dir] ++ rev addr ++ le32 fCnt ++ [0; wrap8 (Z.of_nat i)].

(** Modelled from the spec: the number of blocks that cover [n] bytes. *)
Definition blocksFor (n : nat) : nat := ((n + 15) / 16)%nat.

(** Modelled from the spec: the keystream of section 4.3, the encrypted
    counter blocks 1, 2, ... concatenated and cut to the payload length. *)
Definition keystream (key : list Z) (dir : Z) (addr : list Z) (fCnt : Z) (n : nat) : list Z :=
  firstn n (flat_map (fun i => aesEncryptBlock key (counterBlock dir addr fCnt i))
                     (seq 1 (blocksFor n))).

(** Modelled from the spec: [crypto.DecryptUplink] belongs to a dependency
    and is not in the repository.  Section 4.3: the payload is XORed with
    the keystream; the call fails only on a key of malformed length. *)
Definition DecryptUplink (key addr : list Z) (fCnt : Z) (payload : list Z)
  : list Z * option error :=
  if (List.length key =? 16)%nat
  then (xorBytes payload (keystream key 0 addr fCnt (List.length payload)), None)
  else ([], Some (lib_error "crypto: invalid key size")).

(** Modelled from the spec: the cooperating encryption routine of section
    4.3, with the same key material and the same keystream. *)
Definition EncryptUplink (key addr : list Z) (fCnt : Z) (payload : list Z)
  : list Z * option error :=
  if (List.length key =? 16)%nat
  then (xorBytes payload (keystream key 0 addr fCnt (List.length payload)), None)
  else ([], Some (lib_error "crypto: invalid key size")).

End Cipher.

End crypto.

(** ** Package types (lorawan-stack): conversions used by the pipeline *)

Module types.

(** [types.AES128Key(b)] is Go's conversion of a slice to the array type
    [[16]byte]: it panics when the slice is shorter than the array and
    keeps the first 16 bytes otherwise. *)
Definition AES128Key (b : list Z) : outcome (list Z) :=
  if (len b <? 16)
  then Panic "runtime error: cannot convert slice to array"
  else Ret (firstn 16 b).

(** [types.MustDevAddr(b)], a function of the dependency: the 4-byte
    address, or a panic when [b] does not have 4 bytes. *)
Definition MustDevAddr (b : list Z) : outcome (list Z) :=
  if (len b =? 4) then Ret b else Panic "types: invalid DevAddr length".

End types.

(** ** Package otto: the script interpreter, as the pipeline uses it *)

Module otto.

(** The interpreter is a dependency; the pipeline is written against these
    operations, each of which may return, panic or not come back. [vm_Run]
    stands for a whole run of a script, interrupt requests included. *)
Class Interpreter : Type := {
  vm : Type;
  Value : Type;
  otto_New : outcome vm;
  vm_makeInterrupt : vm -> vm;
  vm_SetStackDepthLimit : vm -> Z -> outcome vm;
  vm_Set : vm -> string -> goValue -> outcome (vm * option error);
  vm_Run : vm -> string -> outcome (Value * option error);
  val_Export : Value -> outcome (goValue * option error)
}.

End otto.

(** ** Package gateway: the uplink pipeline *)

Module gateway.

Import node otto.

(** The part of [Gateway] that the pipeline reads: [devices] is the map
    [map[string]*node.Node], listed in the order in which one [range] over
    it visits the entries (Go leaves that order open). *)
Record Gateway : Type := mkGateway {
  devices : list (string * Node)
}.

Definition nl : string := String (Ascii.ascii_of_nat 10) EmptyString.

(** Modelled from the spec: [reverseByteArray] is a helper of the package
    whose body is not among the sources.  Section 4.1: the device address
    bytes are reversed (least-significant-byte first on the wire). *)
Definition reverseByteArray (b : list Z) : list Z := rev b.

Fixpoint matchDeviceAddr (devAddr : list Z) (devs : list (string * Node))
  : option Node * option error :=
  match devs with
  | [] => (None, Some (errors_New "no match"))
  | (_, dev) :: rest =>
      if bytes_Equal devAddr (Addr dev) then (Some dev, None)
      else matchDeviceAddr devAddr rest
  end.

Section Pipeline.

Context {I : Interpreter}.

(** [os.ReadFile], followed by the conversion of the bytes to a string. *)
Variable os_ReadFile : string -> string + error.

(** The block cipher behind [crypto.DecryptUplink]. *)
Variable aesEncryptBlock : list Z -> list Z -> list Z.

(** The loop [for k, v := range vars { vm.Set(k, v) }] of [executeDecoder];
    [inr err] is the early [return nil, err]. *)
Fixpoint setVars (m : vm) (vars : list (string * goValue)) : M (vm + error) :=
  match vars with
  | [] => ret (inl m)
  | (k, v) :: rest =>
      '(m', err) <- (emit (EvOttoSet k v) ;;; lift (vm_Set m k v)) ;;
      match err with
      | Some e => ret (inr e)
      | None => setVars m' rest
      end
  end.

(** The statements of [executeDecoder], without its deferred function. *)
Definition executeDecoderBody (script : string) (vars : list (string * goValue))
  : M (goValue * option error) :=
  m0 <- (emit EvOttoNew ;;; lift otto_New) ;;
  let m1 := vm_makeInterrupt m0 in
  m2 <- lift (vm_SetStackDepthLimit m1 32) ;;
  r <- setVars m2 vars ;;
  match r with
  | inr e => ret (VNil, Some e)
  | inl m3 =>
      (* interrupt the decoder if it takes more than 10 ms to run *)
      emit (EvGo "watchdog") ;;;
      '(val, err) <- (emit (EvOttoRun script) ;;; lift (vm_Run m3 script)) ;;
      match err with
      | Some e => ret (VNil, Some e)
      | None => emit EvOttoExport ;;; lift (val_Export val)
      end
  end.

(** [executeDecoder]: the deferred function recovers a panic of the body
    and sets the named result [err] to [fmt.Errorf("%s", caught)]; the
    named result [out] still holds its zero value then. *)
Definition executeDecoder (script : string) (vars : list (string * goValue))
  : M (goValue * option error) :=
  deferRecover (fun caught => (VNil, Some (Errorf_s caught)))
    (executeDecoderBody script vars).

(** The text that [convertBinaryToMap] appends to the script. *)
Definition entryCall : string :=
  String.append nl (String.append nl (String.append "Decode(fPort, bytes);" nl)).

Definition convertBinaryToMap (fPort : Z) (decodeScript : string) (b : list Z)
  : M (gomap * option error) :=
  let decodeScript := String.append decodeScript entryCall in
  let vars := [("fPort", VUint8 fPort); ("bytes", VBytes b)] in
  '(v, err) <- executeDecoder decodeScript vars ;;
  match err with
  | Some e => ret (None, Some e)
  | None =>
      match v with
      | VMap readings => ret (Some readings, None)
      | _ => ret (emptyMap, Some (errors_New "decoder returned unexpected data type"))
      end
  end.

Definition decodePayload (fPort : Z) (path : string) (data : list Z)
  : M (gomap * option error) :=
  emit (EvReadFile path) ;;;
  match os_ReadFile path with
  | inr e => ret (emptyMap, Some e)
  | inl fileContent =>
      '(readingsMap, err) <- convertBinaryToMap fPort fileContent data ;;
      ret (readingsMap, None)
  end.

(** Lines 52-66 of [parseDataUplink]: what is done with the parsed fields
    once the device is known.  It is split off so that the fields appear as
    arguments. *)
Definition processFrame (device : Node) (devAddrBE : list Z) (frameCnt fPort : Z)
    (framePayload : list Z) : M (string * gomap * option error) :=
  dAddr <- lift (types.MustDevAddr devAddrBE) ;;
  key <- lift (types.AES128Key (AppSKey device)) ;;
  (* decrypt the frame payload *)
  emit (EvDecryptUplink key dAddr (wrap32 frameCnt) framePayload) ;;;
  let (decryptedPayload, err) :=
    crypto.DecryptUplink aesEncryptBlock key dAddr (wrap32 frameCnt) framePayload in
  match err with
  | Some e => ret ("", emptyMap, Some (Errorf_w "error while decrypting uplink message: " e))
  | None =>
      (* decode using codec *)
      '(readings, err) <- decodePayload fPort (DecoderPath device) decryptedPayload ;;
      match err with
      | Some e => ret ("", emptyMap, Some (Errorf_w "Error decoding payload: " e))
      | None => ret (Name device, readings, None)
      end
  end.

Definition parseDataUplink (g : Gateway) (phyPayload : list Z)
  : M (string * gomap * option error) :=
  devAddr <- lift (slice phyPayload 1 5) ;;
  let devAddrBE := reverseByteArray devAddr in
  match matchDeviceAddr devAddrBE (devices g) with
  | (_, Some _) =>
      emit (EvInfof "received packet from unknown device, ignoring") ;;;
      ret ("", emptyMap, None)
  | (None, None) => lift (Panic "runtime error: invalid memory address or nil pointer dereference")
  | (Some device, None) =>
      fctrl <- lift (index phyPayload 5) ;;
      let foptsLength := Z.land fctrl 15 in
      cntBytes <- lift (slice phyPayload 6 8) ;;
      frameCnt <- lift (LittleEndian_Uint16 cntBytes) ;;
      (if foptsLength =? 0 then ret []
       else lift (slice phyPayload 8 (wrap8 (8 + foptsLength)))) ;;;
      fPort <- lift (index phyPayload (wrap8 (8 + foptsLength))) ;;
      framePayload <-
        lift (slice phyPayload (wrap8 (wrap8 (8 + foptsLength) + 1)) (len phyPayload - 4)) ;;
      processFrame device devAddrBE frameCnt fPort framePayload
  end.

End Pipeline.

End gateway.

(** ** The frame layout and the registry, in the words of the specification *)

Module Spec.

Import node gateway.

Definition byteAt (phy : list Z) (i : nat) : Z := nth i phy 0.

(** Bytes 1-4 of the frame, in wire order. *)
Definition wireAddress (phy : list Z) : list Z :=
  [byteAt phy 1; byteAt phy 2; byteAt phy 3; byteAt phy 4].

(** The options length: the low 4 bits of byte 5. *)
Definition optionsLength (phy : list Z) : Z := byteAt phy 5 mod 16.

(** The parsed frame of section 3. *)
Record UplinkFrame : Type := mkUplinkFrame {
  deviceAddress : list Z;
  frameCounter : Z;
  framePort : Z;
  framePayload : list Z
}.

Definition frameFields (phy : list Z) : UplinkFrame :=
  let n := Z.to_nat (optionsLength phy) in
  {| deviceAddress := [byteAt phy 4; byteAt phy 3; byteAt phy 2; byteAt phy 1];
     frameCounter := byteAt phy 6 + 256 * byteAt phy 7;
     framePort := byteAt phy (8 + n);
     framePayload := firstn (List.length phy - 4 - (9 + n)) (skipn (9 + n) phy) |}.

(** A frame is long enough when it holds the 8 header bytes, the options,
    the port byte and the 4-byte tag. *)
Definition longEnough (phy : list Z) : Prop := 13 + optionsLength phy <= len phy.

(** No registered device has the address [a]. *)
Definition unknownAddress (g : Gateway) (a : list Z) : Prop :=
  forall name dev, In (name, dev) (devices g) -> Addr dev <> a.

(** Some registered device has the address [a]. *)
Definition registered (g : Gateway) (a : list Z) : Prop :=
  exists name dev, In (name, dev) (devices g) /\ Addr dev = a.

(** How a computation ends when no panic reaches its caller. *)
Definition returnsOrDiverges {A : Type} (m : M A) : Prop :=
  (exists a, snd m = Ret a) \/ snd m = Diverge.

(** The value is a string-keyed mapping ([map[string]interface{}]). *)
Definition isMapping (v : goValue) : Prop := exists kvs, v = VMap kvs.

(** The decryption step of the pipeline failed: the call panicked, or it
    returned the wrapped decryption error. *)
Definition decryptionFailed (r : outcome (string * gomap * option error)) : Prop :=
  (exists c, r = Panic c) \/
  (exists e, r = Ret ("", emptyMap, Some (Errorf_w "error while decrypting uplink message: " e))).

End Spec.

(** ** A small interpreter, file system and block cipher for the examples *)

Module Sample.

Import node otto gateway.

(** An interpreter that tells a few scripts apart by how they begin. *)
Definition sampleRun (script : string) : outcome (goValue * option error) :=
  if String.prefix "throw" script
  then Ret (VNil, Some (lib_error "Error: bad payload"))
  else if String.prefix "undefinedName" script
  then Ret (VNil, Some (lib_error "ReferenceError: 'undefinedName' is not defined"))
  else if String.prefix "crash" script then Panic "interpreter fault"
  else if String.prefix "for(;;)" script then Diverge
  else if String.prefix "7" script then Ret (VInt64 7, None)
  else Ret (VMap [("v", VInt64 1)], None).

#[export] Instance sampleOtto : Interpreter := {|
  vm := list (string * goValue);
  Value := goValue;
  otto_New := Ret [];
  vm_makeInterrupt := fun m => m;
  vm_SetStackDepthLimit := fun m _ => Ret m;
  vm_Set := fun m k v => Ret ((k, v) :: m, None);
  vm_Run := fun _ script => sampleRun script;
  val_Export := fun v => Ret (v, None)
|}.

Definition sampleReadFile (path : string) : string + error :=
  if String.eqb path "ok.js" then inl "function Decode(fPort, bytes) { return {v: 1}; }"
  else if String.eqb path "throw.js" then inl "throw new Error('bad payload');"
  else if String.eqb path "seven.js" then inl "7;"
  else if String.eqb path "crash.js" then inl "crash"
  else inr (lib_error "open: no such file or directory").

Definition sampleBlock (key block : list Z) : list Z :=
  firstn 16 (crypto.xorBytes key block ++ repeat 0 16).

Definition sampleKey : list Z := [1; 2; 3; 4; 5; 6; 7; 8; 9; 10; 11; 12; 13; 14; 15; 16].

Definition sampleDevice (path : string) : Node :=
  {| Name := "sensor-1"; DecoderPath := path; nwkSKey := []; AppSKey := sampleKey;
     AppKey := []; Addr := [1; 2; 3; 4]; DevEui := [] |}.

Definition sampleGateway (path : string) : Gateway :=
  {| devices := [("sensor-1", sampleDevice path)] |}.

(** The frame of the end-to-end example: address 04 03 02 01 on the wire,
    no options, counter 5, port 1, two payload bytes, four tag bytes. *)
Definition sampleFrame : list Z := [64; 4; 3; 2; 1; 0; 5; 0; 1; 170; 187; 0; 0; 0; 0].

Definition run (path : string) (phy : list Z) : M (string * gomap * option error) :=
  parseDataUplink sampleReadFile sampleBlock (sampleGateway path) phy.

End Sample.

(** ** Package encoding/hex: decoding of the configured keys *)

Module hex.

(** [reverseHexTable]: the value of a hexadecimal digit, upper or lower
    case; [None] stands for the table's 0xff. *)
Definition fromHexChar (c : Ascii.ascii) : option Z :=
  let n := Z.of_nat (Ascii.nat_of_ascii c) in
  if (48 <=? n) && (n <=? 57) then Some (n - 48)
  else if (97 <=? n) && (n <=? 102) then Some (n - 97 + 10)
  else if (65 <=? n) && (n <=? 70) then Some (n - 65 + 10)
  else None.

(** [hex.DecodeString]: two digits per byte; the bytes decoded before a
    fault are returned with the error. *)
Fixpoint DecodeString (s : string) : list Z * option error :=
  match s with
  | EmptyString => ([], None)
  | String p EmptyString =>
      match fromHexChar p with
      | None => ([], Some (lib_error "encoding/hex: invalid byte"))
      | Some _ => ([], Some (lib_error "encoding/hex: odd length hex string"))
      end
  | String p (String q rest) =>
      match fromHexChar p, fromHexChar q with
      | Some a, Some b =>
          let (bs, err) := DecodeString rest in
          (Z.lor (Z.shiftl a 4) b :: bs, err)
      | _, _ => ([], Some (lib_error "encoding/hex: invalid byte"))
      end
  end.

End hex.

(** ** Package node: configuration, validation and the constructor *)

Module nodecfg.

Import node.

(** [node.Config] ([src/node/node.go]). *)
Record Config : Type := mkConfig {
  JoinType : string;
  DecoderPath : string;
  DevEUI : string;
  AppKey : string;
  AppSKey : string;
  NwkSKey : string;
  DevAddr : string;
  GatewayName : string
}.

Section Validation.

(** [resource.NewConfigValidationError], a function of the framework. *)
Variable NewConfigValidationError : string -> error -> error.

Definition validateOTAAAttributes (conf : Config) (path : string)
  : list string * option error :=
  if String.eqb (DevEUI conf) ""
  then ([], Some (NewConfigValidationError path
                    (errors_New "dev EUI is required for OTAA join type")))
  else if negb (String.length (DevEUI conf) =? 16)%nat
  then ([], Some (NewConfigValidationError path (errors_New "dev EUI must be 8 bytes")))
  else if String.eqb (AppKey conf) ""
  then ([], Some (NewConfigValidationError path
                    (errors_New "app key is required for OTAA join type")))
  else if negb (String.length (AppKey conf) =? 32)%nat
  then ([], Some (NewConfigValidationError path (errors_New "app key must be 16 bytes")))
  else ([], None).

Definition validateABPAttributes (conf : Config) (path : string)
  : list string * option error :=
  if String.eqb (AppSKey conf) ""
  then ([], Some (NewConfigValidationError path
                    (errors_New "app session key is required for ABP join type")))
  else if negb (String.length (AppSKey conf) =? 32)%nat
  then ([], Some (NewConfigValidationError path
                    (errors_New "app session key must be 16 bytes")))
  else if String.eqb (NwkSKey conf) ""
  then ([], Some (NewConfigValidationError path
                    (errors_New "network session key is required for ABP join type")))
  else if negb (String.length (NwkSKey conf) =? 32)%nat
  then ([], Some (NewConfigValidationError path
                    (errors_New "network session key must be 16 bytes")))
  else if String.eqb (DevAddr conf) ""
  then ([], Some (NewConfigValidationError path
                    (errors_New "device address is required for ABP join type")))
  else if negb (String.length (DevAddr conf) =? 8)%nat
  then ([], Some (NewConfigValidationError path (errors_New "device address must be 4 bytes")))
  else ([], None).

(** [Validate] ensures all parts of the config are valid. *)
Definition Validate (conf : Config) (path : string) : list string * option error :=
  if String.eqb (DecoderPath conf) ""
  then ([], Some (NewConfigValidationError path (errors_New "decoder path is required")))
  else if String.eqb (JoinType conf) "ABP" then validateABPAttributes conf path
  else if String.eqb (JoinType conf) "OTAA" || String.eqb (JoinType conf) ""
  then validateOTAAAttributes conf path
  else ([], Some (NewConfigValidationError path (errors_New "join type is OTAA or ABP"))).

End Validation.

(** The gateway dependency, as [newNode] uses it: [DoCommand] gets the
    command map and its error result is looked at. *)
Record Sensor : Type := mkSensor {
  DoCommand : list (string * Node) -> option error
}.

(** [resource.Dependencies], through [sensor.FromDependencies]: the sensor
    found under a name, or an error. *)
Definition Dependencies : Type := string -> Sensor + error.

(** [resource.Config], as [newNode] reads it: the resource name and the
    result of [resource.NativeConfig]. *)
Record ResourceConfig : Type := mkResourceConfig {
  ResourceName : string;
  NativeConfig : Config + error
}.

(** The calls of [newNode] that leave the package. *)
Inductive ctorEvent : Type :=
| EvPrintln (line : string)
| EvDoCommand (cmd : list (string * Node)).

(** The [switch cfg.JoinType] of [newNode]: the keys of the join type are
    decoded into the node; [inr err] is the early [return nil, err]. *)
Definition decodeKeys (cfg : Config) (n : Node) : Node + error :=
  if String.eqb (JoinType cfg) "OTAA" || String.eqb (JoinType cfg) ""
  then
    let (appKey, err) := hex.DecodeString (AppKey cfg) in
    match err with
    | Some e => inr e
    | None =>
        let (devEui, err) := hex.DecodeString (DevEUI cfg) in
        match err with
        | Some e => inr e
        | None =>
            inl {| Name := Name n; node.DecoderPath := node.DecoderPath n;
                   nwkSKey := nwkSKey n; node.AppSKey := node.AppSKey n;
                   node.AppKey := appKey; Addr := Addr n; DevEui := devEui |}
        end
    end
  else if String.eqb (JoinType cfg) "ABP"
  then
    let (devAddr, err) := hex.DecodeString (DevAddr cfg) in
    match err with
    | Some e => inr e
    | None =>
        let (appSKey, err) := hex.DecodeString (AppSKey cfg) in
        match err with
        | Some e => inr e
        | None =>
            inl {| Name := Name n; node.DecoderPath := node.DecoderPath n;
                   nwkSKey := nwkSKey n; node.AppSKey := appSKey;
                   node.AppKey := node.AppKey n; Addr := devAddr; DevEui := DevEui n |}
        end
    end
  else inl n.

Definition newNode (deps : Dependencies) (conf : ResourceConfig)
  : list ctorEvent * (option Node * option error) :=
  match NativeConfig conf with
  | inr err => ([], (None, Some err))
  | inl cfg =>
      let n := {| Name := ResourceName conf; node.DecoderPath := DecoderPath cfg;
                  nwkSKey := []; node.AppSKey := []; node.AppKey := [];
                  Addr := []; DevEui := [] |} in
      match deps (GatewayName cfg) with
      | inr _ =>
          ([], (None, Some (errors_New
                  (String.append "no gateway named ("
                     (String.append (GatewayName cfg) ")")))))
      | inl gateway =>
          match decodeKeys cfg n with
          | inr err => ([], (None, Some err))
          | inl n' =>
              let cmd := [("register_device", n')] in
              let trace := [EvPrintln "doing do command"; EvDoCommand cmd] in
              match DoCommand gateway cmd with
              | Some err => (trace, (None, Some err))
              | None => (trace, (Some n', None))
              end
          end
      end
  end.

End nodecfg.

(** ** Further notions used by the properties *)

Module Facts.

Import node otto gateway.

(** The event is a call of the interpreter, or the start of the watchdog. *)
Definition isOttoEvent (e : event) : Prop :=
  match e with
  | EvOttoNew | EvOttoSet _ _ | EvGo _ | EvOttoRun _ | EvOttoExport => True
  | _ => False
  end.

(** What a call of the cipher is given: a 16-byte key, a 4-byte address and
    a frame counter below 2^16. *)
Definition decryptCallOk (e : event) : Prop :=
  match e with
  | EvDecryptUplink key addr fCnt _ =>
      List.length key = 16%nat /\ List.length addr = 4%nat /\ 0 <= fCnt < 65536
  | _ => True
  end.

(** The [vm.Set] calls for a list of variables, in order. *)
Definition setEvents (vars : list (string * goValue)) : list event :=
  map (fun kv => EvOttoSet (fst kv) (snd kv)) vars.

(** A configuration that [Validate] lets through, in words: a decoder path,
    and the hexadecimal fields of the join type with their full lengths. *)
Definition validConfig (conf : nodecfg.Config) : Prop :=
  nodecfg.DecoderPath conf <> "" /\
  ((nodecfg.JoinType conf = "ABP" /\
    String.length (nodecfg.AppSKey conf) = 32%nat /\
    String.length (nodecfg.NwkSKey conf) = 32%nat /\
    String.length (nodecfg.DevAddr conf) = 8%nat) \/
   ((nodecfg.JoinType conf = "OTAA" \/ nodecfg.JoinType conf = "") /\
    String.length (nodecfg.DevEUI conf) = 16%nat /\
    String.length (nodecfg.AppKey conf) = 32%nat)).

End Facts.

(** ** Sample configurations *)

Module SampleNode.

Import node.

Definition abpConfig : nodecfg.Config :=
  {| nodecfg.JoinType := "ABP"; nodecfg.DecoderPath := "ok.js";
     nodecfg.DevEUI := ""; nodecfg.AppKey := "";
     nodecfg.AppSKey := "0102030405060708090A0b0c0d0e0f10";
     nodecfg.NwkSKey := "00000000000000000000000000000000";
     nodecfg.DevAddr := "01020304"; nodecfg.GatewayName := "gw" |}.

Definition otaaConfig : nodecfg.Config :=
  {| nodecfg.JoinType := ""; nodecfg.DecoderPath := "ok.js";
     nodecfg.DevEUI := "0011223344556677";
     nodecfg.AppKey := "000102030405060708090a0b0c0d0e0f";
     nodecfg.AppSKey := ""; nodecfg.NwkSKey := "";
     nodecfg.DevAddr := ""; nodecfg.GatewayName := "gw" |}.

Definition acceptingGateway : nodecfg.Sensor := {| nodecfg.DoCommand := fun _ => None |}.

Definition deps : nodecfg.Dependencies :=
  fun name => if String.eqb name "gw" then inl acceptingGateway
              else inr (lib_error "resource not found").

Definition validationError (path : string) (e : error) : error := Errorf_w path e.

Definition resourceConfig (cfg : nodecfg.Config) : nodecfg.ResourceConfig :=
  {| nodecfg.ResourceName := "sensor-1"; nodecfg.NativeConfig := inl cfg |}.

(** Two registered devices with the same address. *)
Definition twin (name path : string) : Node :=
  {| Name := name; DecoderPath := path; nwkSKey := []; AppSKey := Sample.sampleKey;
     AppKey := []; Addr := [1; 2; 3; 4]; DevEui := [] |}.

Definition otaaNode : Node :=
  {| Name := "joined-later"; DecoderPath := "ok.js"; nwkSKey := []; AppSKey := [];
     AppKey := Sample.sampleKey; Addr := []; DevEui := [0; 17; 34; 51; 68; 85; 102; 119] |}.

End SampleNode.

(** ** Properties *)

Import node otto gateway Spec.

(** *** Slices and indices *)

Lemma len_nonneg {A : Type} (s : list A) : 0 <= len s.
Proof. unfold len. lia. Qed.

Lemma len_cons {A : Type} (x : A) (s : list A) : len (x :: s) = 1 + len s.
Proof. unfold len. simpl List.length. lia. Qed.

Lemma slice_ok (s : list Z) (lo hi : Z) :
  0 <= lo -> lo <= hi -> hi <= len s ->
  slice s lo hi = Ret (firstn (Z.to_nat (hi - lo)) (skipn (Z.to_nat lo) s)).
Proof.
  intros H0 H1 H2. unfold slice.
  replace (0 <=? lo) with true by (symmetry; apply Z.leb_le; exact H0).
  replace (lo <=? hi) with true by (symmetry; apply Z.leb_le; exact H1).
  replace (hi <=? len s) with true by (symmetry; apply Z.leb_le; exact H2).
  reflexivity.
Qed.

Lemma slice_panic (s : list Z) (lo hi : Z) :
  lo < 0 \/ hi < lo \/ len s < hi ->
  slice s lo hi = Panic "runtime error: slice bounds out of range".
Proof.
  intros H. unfold slice.
  destruct (0 <=? lo) eqn:E0; [| reflexivity].
  destruct (lo <=? hi) eqn:E1; [| reflexivity].
  destruct (hi <=? len s) eqn:E2; [| reflexivity].
  apply Z.leb_le in E0, E1, E2. lia.
Qed.

Lemma index_ok (s : list Z) (i : Z) :
  0 <= i -> i < len s -> index s i = Ret (nth (Z.to_nat i) s 0).
Proof.
  intros H0 H1. unfold index.
  replace (0 <=? i) with true by (symmetry; apply Z.leb_le; exact H0).
  replace (i <? len s) with true by (symmetry; apply Z.ltb_lt; exact H1).
  reflexivity.
Qed.

Lemma index_panic (s : list Z) (i : Z) :
  len s <= i -> index s i = Panic "runtime error: index out of range".
Proof.
  intros H. unfold index.
  destruct (0 <=? i); [| reflexivity].
  replace (i <? len s) with false by (symmetry; apply Z.ltb_ge; exact H).
  reflexivity.
Qed.

Lemma slice_address (phy : list Z) :
  5 <= len phy -> slice phy 1 5 = Ret (wireAddress phy).
Proof.
  intros H. rewrite slice_ok by lia.
  destruct phy as [| b0 [| b1 [| b2 [| b3 [| b4 rest]]]]];
    repeat rewrite len_cons in H; try (change (len (@nil Z)) with 0 in H; lia).
  reflexivity.
Qed.

(** *** The registry *)

Lemma matchDeviceAddr_unknown (a : list Z) (devs : list (string * Node)) :
  (forall name dev, In (name, dev) devs -> Addr dev <> a) ->
  matchDeviceAddr a devs = (None, Some (errors_New "no match")).
Proof.
  induction devs as [| [name dev] rest IH]; intros Hno; simpl.
  - reflexivity.
  - unfold bytes_Equal. destruct (list_eq_dec Z.eq_dec a (Addr dev)) as [Heq | Hne].
    + exfalso. apply (Hno name dev); [left; reflexivity | symmetry; exact Heq].
    + apply IH. intros n d Hin. apply (Hno n d). right. exact Hin.
Qed.

Lemma matchDeviceAddr_found (a : list Z) (devs : list (string * Node)) (dev : Node) (e : option error) :
  matchDeviceAddr a devs = (Some dev, e) ->
  e = None /\ Addr dev = a /\ exists name, In (name, dev) devs.
Proof.
  induction devs as [| [name d] rest IH]; simpl; intros H.
  - discriminate.
  - unfold bytes_Equal in H. destruct (list_eq_dec Z.eq_dec a (Addr d)) as [Heq | Hne].
    + injection H as Hd He. rewrite <- Hd.
      split; [symmetry; exact He | split; [symmetry; exact Heq | exists name; left; reflexivity]].
    + destruct (IH H) as (He & Ha & n & Hin).
      split; [exact He | split; [exact Ha | exists n; right; exact Hin]].
Qed.

Lemma matchDeviceAddr_registered (a : list Z) (devs : list (string * Node)) :
  (exists name dev, In (name, dev) devs /\ Addr dev = a) ->
  exists dev, matchDeviceAddr a devs = (Some dev, None).
Proof.
  induction devs as [| [name d] rest IH]; intros (n & dev & Hin & Ha); simpl.
  - destruct Hin.
  - unfold bytes_Equal. destruct (list_eq_dec Z.eq_dec a (Addr d)) as [Heq | Hne].
    + exists d. reflexivity.
    + apply IH. destruct Hin as [Hin | Hin].
      * exfalso. apply Hne. inversion Hin; subst. reflexivity.
      * exists n, dev. split; [exact Hin | exact Ha].
Qed.

(** *** The computation type *)

Lemma bind_lift_Ret {A B : Type} (a : A) (f : A -> M B) : bind (lift (Ret a)) f = f a.
Proof. unfold bind, lift. destruct (f a) as [t r]. reflexivity. Qed.

Lemma bind_lift_Panic {A B : Type} (c : string) (f : A -> M B) :
  bind (lift (Panic c)) f = ([], Panic c).
Proof. reflexivity. Qed.

Lemma bind_ret {A B : Type} (a : A) (f : A -> M B) : bind (ret a) f = f a.
Proof. apply bind_lift_Ret. Qed.

Lemma bind_emit {B : Type} (e : event) (f : unit -> M B) :
  bind (emit e) f = (e :: fst (f tt), snd (f tt)).
Proof. unfold bind, emit. destruct (f tt) as [t r]. reflexivity. Qed.

Lemma bind_assoc {A B C : Type} (m : M A) (f : A -> M B) (k : B -> M C) :
  bind (bind m f) k = bind m (fun a => bind (f a) k).
Proof.
  destruct m as [t [a | c |]]; simpl; try reflexivity.
  destruct (f a) as [t1 [b | c |]]; simpl; try reflexivity.
  destruct (k b) as [t2 r]. rewrite app_assoc. reflexivity.
Qed.

(** *** Fixed-width arithmetic *)

Lemma land_15_mod (x : Z) : Z.land x 15 = x mod 16.
Proof. change 15 with (Z.ones 4). rewrite Z.land_ones by lia. reflexivity. Qed.

Lemma optionsLength_range (phy : list Z) : 0 <= optionsLength phy < 16.
Proof. unfold optionsLength. apply Z.mod_pos_bound. lia. Qed.

Lemma lor_shiftl_8 (a b : Z) : 0 <= a < 256 -> Z.lor a (Z.shiftl b 8) = a + 256 * b.
Proof.
  intros Ha.
  assert (Hland : Z.land a (Z.shiftl b 8) = 0).
  { apply Z.bits_inj'. intros n Hn. rewrite Z.land_spec, Z.bits_0.
    destruct (Z_lt_le_dec n 8) as [Hlt | Hge].
    - rewrite (Z.shiftl_spec_low b 8 n Hlt). apply andb_false_r.
    - replace a with (a mod 2 ^ 8) by (apply Z.mod_small; change (2 ^ 8) with 256; lia).
      rewrite Z.mod_pow2_bits_high by lia. reflexivity. }
  pose proof (Z.add_lor_land a (Z.shiftl b 8)) as H.
  rewrite Hland in H. rewrite Z.shiftl_mul_pow2 in H |- * by lia.
  change (2 ^ 8) with 256 in H |- *. lia.
Qed.

Lemma byteAt_is_byte (phy : list Z) (i : nat) :
  Forall is_byte phy -> is_byte (byteAt phy i).
Proof.
  intros H. unfold byteAt.
  destruct (Nat.lt_ge_cases i (List.length phy)) as [Hlt | Hge].
  - apply (proj1 (Forall_forall is_byte phy) H). apply nth_In. exact Hlt.
  - rewrite nth_overflow by exact Hge. unfold is_byte. lia.
Qed.

Lemma counter_bytes (phy : list Z) :
  8 <= len phy -> firstn 2 (skipn 6 phy) = [byteAt phy 6; byteAt phy 7].
Proof.
  intros H.
  destruct phy as [| b0 [| b1 [| b2 [| b3 [| b4 [| b5 [| b6 [| b7 rest]]]]]]]];
    repeat rewrite len_cons in H; try (change (len (@nil Z)) with 0 in H; lia).
  reflexivity.
Qed.

Lemma Uint16_counter (phy : list Z) :
  LittleEndian_Uint16 [byteAt phy 6; byteAt phy 7]
  = Ret (wrap16 (Z.lor (byteAt phy 6) (Z.shiftl (byteAt phy 7) 8))).
Proof. reflexivity. Qed.

Lemma wrap8_small (n : Z) : 0 <= n < 256 -> wrap8 n = n.
Proof. intros H. unfold wrap8. apply Z.mod_small. exact H. Qed.

(** *** The unknown-device branch *)

Section PipelineFacts.

Context {I : Interpreter}.
Variable os_ReadFile : string -> string + error.
Variable aesEncryptBlock : list Z -> list Z -> list Z.

Lemma parseDataUplink_unknown (g : Gateway) (phy : list Z) :
  5 <= len phy ->
  unknownAddress g (rev (wireAddress phy)) ->
  parseDataUplink os_ReadFile aesEncryptBlock g phy
  = ([EvInfof "received packet from unknown device, ignoring"], Ret ("", emptyMap, None)).
Proof.
  intros Hlen Hun. unfold parseDataUplink.
  rewrite (slice_address phy Hlen), bind_lift_Ret.
  unfold reverseByteArray. rewrite (matchDeviceAddr_unknown _ _ Hun).
  reflexivity.
Qed.

Lemma parseDataUplink_too_short (g : Gateway) (phy : list Z) :
  len phy < 5 ->
  parseDataUplink os_ReadFile aesEncryptBlock g phy
  = ([], Panic "runtime error: slice bounds out of range").
Proof.
  intros Hlen. unfold parseDataUplink.
  rewrite slice_panic by lia. reflexivity.
Qed.

(** *** The known-device branch *)

Lemma parseDataUplink_known (g : Gateway) (phy : list Z) (dev : Node) :
  matchDeviceAddr (rev (wireAddress phy)) (devices g) = (Some dev, None) ->
  longEnough phy ->
  parseDataUplink os_ReadFile aesEncryptBlock g phy
  = processFrame os_ReadFile aesEncryptBlock dev
      (rev (wireAddress phy))
      (wrap16 (Z.lor (byteAt phy 6) (Z.shiftl (byteAt phy 7) 8)))
      (framePort (frameFields phy))
      (framePayload (frameFields phy)).
Proof.
  intros Hm Hlong. unfold longEnough in Hlong.
  pose proof (optionsLength_range phy) as Hf.
  unfold parseDataUplink.
  rewrite slice_address by lia. rewrite bind_lift_Ret.
  unfold reverseByteArray. rewrite Hm.
  rewrite index_ok by lia. rewrite bind_lift_Ret.
  change (nth (Z.to_nat 5) phy 0) with (byteAt phy 5).
  rewrite land_15_mod. fold (optionsLength phy).
  rewrite slice_ok by lia.
  change (Z.to_nat (8 - 6)) with 2%nat. change (Z.to_nat 6) with 6%nat.
  rewrite counter_bytes by lia. rewrite bind_lift_Ret.
  rewrite Uint16_counter, bind_lift_Ret.
  rewrite (wrap8_small (8 + optionsLength phy)) by lia.
  rewrite (wrap8_small (8 + optionsLength phy + 1)) by lia.
  assert (Hskip : (if optionsLength phy =? 0 then ret []
                   else lift (slice phy 8 (8 + optionsLength phy)))
                  = ret (if optionsLength phy =? 0 then []
                         else firstn (Z.to_nat (8 + optionsLength phy - 8)) (skipn (Z.to_nat 8) phy))).
  { destruct (optionsLength phy =? 0); [reflexivity |].
    rewrite slice_ok by lia. reflexivity. }
  rewrite Hskip, bind_ret.
  rewrite index_ok by lia. rewrite bind_lift_Ret.
  rewrite slice_ok by lia. rewrite bind_lift_Ret.
  unfold frameFields, framePort, framePayload, byteAt.
  replace (Z.to_nat (8 + optionsLength phy)) with (8 + Z.to_nat (optionsLength phy))%nat by lia.
  replace (Z.to_nat (len phy - 4 - (8 + optionsLength phy + 1)))
    with (List.length phy - 4 - (9 + Z.to_nat (optionsLength phy)))%nat by (unfold len; lia).
  replace (Z.to_nat (8 + optionsLength phy + 1)) with (9 + Z.to_nat (optionsLength phy))%nat by lia.
  reflexivity.
Qed.

Lemma parseDataUplink_known_short (g : Gateway) (phy : list Z) (dev : Node) :
  5 <= len phy ->
  matchDeviceAddr (rev (wireAddress phy)) (devices g) = (Some dev, None) ->
  ~ longEnough phy ->
  exists c, parseDataUplink os_ReadFile aesEncryptBlock g phy = ([], Panic c).
Proof.
  intros Hlen Hm Hshort. unfold longEnough in Hshort.
  pose proof (optionsLength_range phy) as Hf.
  unfold parseDataUplink.
  rewrite slice_address by lia. rewrite bind_lift_Ret.
  unfold reverseByteArray. rewrite Hm.
  destruct (Z_lt_le_dec (len phy) 6) as [H6 | H6].
  { rewrite index_panic by lia. eexists. reflexivity. }
  rewrite index_ok by lia. rewrite bind_lift_Ret.
  change (nth (Z.to_nat 5) phy 0) with (byteAt phy 5).
  rewrite land_15_mod. fold (optionsLength phy).
  destruct (Z_lt_le_dec (len phy) 8) as [H8 | H8].
  { rewrite slice_panic by lia. eexists. reflexivity. }
  rewrite slice_ok by lia.
  change (Z.to_nat (8 - 6)) with 2%nat. change (Z.to_nat 6) with 6%nat.
  rewrite counter_bytes by lia. rewrite bind_lift_Ret.
  rewrite Uint16_counter, bind_lift_Ret.
  rewrite (wrap8_small (8 + optionsLength phy)) by lia.
  rewrite (wrap8_small (8 + optionsLength phy + 1)) by lia.
  destruct (Z_lt_le_dec (len phy) (8 + optionsLength phy)) as [Ho | Ho].
  { destruct (optionsLength phy =? 0) eqn:E0; [apply Z.eqb_eq in E0; lia |].
    rewrite slice_panic by lia. eexists. reflexivity. }
  assert (Hskip : (if optionsLength phy =? 0 then ret []
                   else lift (slice phy 8 (8 + optionsLength phy)))
                  = ret (if optionsLength phy =? 0 then []
                         else firstn (Z.to_nat (8 + optionsLength phy - 8)) (skipn (Z.to_nat 8) phy))).
  { destruct (optionsLength phy =? 0); [reflexivity |].
    rewrite slice_ok by lia. reflexivity. }
  rewrite Hskip, bind_ret.
  destruct (Z_lt_le_dec (len phy) (9 + optionsLength phy)) as [Hp | Hp].
  { rewrite index_panic by lia. eexists. reflexivity. }
  rewrite index_ok by lia. rewrite bind_lift_Ret.
  rewrite slice_panic by lia. eexists. reflexivity.
Qed.

End PipelineFacts.

(** *** The payload cipher *)

Section CipherFacts.

Variable aesEncryptBlock : list Z -> list Z -> list Z.
Hypothesis block_size : forall key block, List.length (aesEncryptBlock key block) = 16%nat.

Lemma xorBytes_length (a b : list Z) :
  (List.length a <= List.length b)%nat ->
  List.length (crypto.xorBytes a b) = List.length a.
Proof.
  revert b. induction a as [| x a IH]; intros [| y b] H; simpl in *; try lia.
  rewrite IH by lia. reflexivity.
Qed.

Lemma xorBytes_involutive (a b : list Z) :
  (List.length a <= List.length b)%nat ->
  crypto.xorBytes (crypto.xorBytes a b) b = a.
Proof.
  revert b. induction a as [| x a IH]; intros [| y b] H; simpl in *; try lia.
  - reflexivity.
  - reflexivity.
  - rewrite IH by lia.
    rewrite Z.lxor_assoc, Z.lxor_nilpotent, Z.lxor_0_r. reflexivity.
Qed.

Lemma blocks_length (f : nat -> list Z) (l : list nat) :
  (forall i, List.length (f i) = 16%nat) ->
  List.length (flat_map f l) = (16 * List.length l)%nat.
Proof.
  intros Hf. induction l as [| i l IH]; simpl.
  - reflexivity.
  - rewrite length_app, Hf, IH. lia.
Qed.

Lemma blocksFor_covers (n : nat) : (n <= 16 * crypto.blocksFor n)%nat.
Proof.
  unfold crypto.blocksFor.
  pose proof (Nat.div_mod_eq (n + 15) 16) as H.
  pose proof (Nat.mod_upper_bound (n + 15) 16) as Hr.
  lia.
Qed.

Lemma keystream_length (key : list Z) (dir : Z) (addr : list Z) (fCnt : Z) (n : nat) :
  List.length (crypto.keystream aesEncryptBlock key dir addr fCnt n) = n.
Proof.
  unfold crypto.keystream. apply firstn_length_le.
  rewrite blocks_length by (intros i; apply block_size).
  rewrite length_seq. apply blocksFor_covers.
Qed.

Lemma decrypt_encrypt (key addr : list Z) (fCnt : Z) (plaintext : list Z) :
  List.length key = 16%nat ->
  crypto.DecryptUplink aesEncryptBlock key addr fCnt
    (fst (crypto.EncryptUplink aesEncryptBlock key addr fCnt plaintext))
  = (plaintext, None).
Proof.
  intros Hk. unfold crypto.DecryptUplink, crypto.EncryptUplink.
  rewrite Hk. simpl Nat.eqb. cbv iota. simpl fst.
  rewrite xorBytes_length by (rewrite keystream_length; lia).
  rewrite xorBytes_involutive by (rewrite keystream_length; lia).
  reflexivity.
Qed.

End CipherFacts.

(** *** The decoder *)

Section DecoderFacts.

Context {I : Interpreter}.
Variable os_ReadFile : string -> string + error.
Variable aesEncryptBlock : list Z -> list Z -> list Z.

Lemma executeDecoder_recovered (script : string) (vars : list (string * goValue)) :
  returnsOrDiverges (executeDecoder script vars).
Proof.
  unfold executeDecoder, deferRecover, returnsOrDiverges.
  destruct (executeDecoderBody script vars) as [t [a | c |]]; simpl.
  - left. exists a. reflexivity.
  - left. eexists. reflexivity.
  - right. reflexivity.
Qed.

Lemma executeDecoder_on_panic (script : string) (vars : list (string * goValue))
    (t : list event) (c : string) :
  executeDecoderBody script vars = (t, Panic c) ->
  executeDecoder script vars = (t, Ret (VNil, Some (Errorf_s c))).
Proof. intros H. unfold executeDecoder. rewrite H. reflexivity. Qed.

Lemma convertBinaryToMap_total (fPort : Z) (script : string) (b : list Z) :
  returnsOrDiverges (convertBinaryToMap fPort script b).
Proof.
  unfold convertBinaryToMap, returnsOrDiverges.
  pose proof (executeDecoder_recovered (String.append script entryCall)
                [("fPort", VUint8 fPort); ("bytes", VBytes b)]) as H.
  destruct (executeDecoder _ _) as [t o]. unfold returnsOrDiverges in H. simpl in H.
  destruct H as [[[v err] H] | H]; subst o; simpl.
  - left. destruct err as [e |]; [eexists; reflexivity |].
    destruct v; eexists; reflexivity.
  - right. reflexivity.
Qed.

(** [decodePayload] reads the file first and reports nothing but a failure
    of that read: the error of [convertBinaryToMap] is not returned. *)
Lemma decodePayload_shape (fPort : Z) (path : string) (data : list Z) :
  exists t o,
    decodePayload os_ReadFile fPort path data = (EvReadFile path :: t, o) /\
    (o = Diverge \/
     exists r e, o = Ret (r, e) /\
       (e = None \/ exists e0, os_ReadFile path = inr e0 /\ e = Some e0 /\ r = emptyMap)).
Proof.
  unfold decodePayload. rewrite bind_emit.
  destruct (os_ReadFile path) as [content | e0] eqn:Hrf.
  - pose proof (convertBinaryToMap_total fPort content data) as H.
    destruct (convertBinaryToMap fPort content data) as [t o].
    unfold returnsOrDiverges in H. simpl in H.
    destruct H as [[[r err] H] | H]; subst o; simpl.
    + eexists. eexists. split; [reflexivity |]. right.
      exists r, None. split; [reflexivity | left; reflexivity].
    + eexists. eexists. split; [reflexivity |]. left. reflexivity.
  - simpl. eexists. eexists. split; [reflexivity |]. right.
    exists emptyMap, (Some e0). split; [reflexivity |]. right.
    exists e0. split; [reflexivity | split; reflexivity].
Qed.

Lemma decodePayload_readable (fPort : Z) (path content : string) (data : list Z)
    (t : list event) (r : gomap) (e : option error) :
  os_ReadFile path = inl content ->
  decodePayload os_ReadFile fPort path data = (t, Ret (r, e)) ->
  e = None.
Proof.
  intros Hrf H. unfold decodePayload in H. rewrite bind_emit, Hrf in H.
  destruct (convertBinaryToMap fPort content data) as [t1 [[r1 e1] | c |]];
    simpl in H; inversion H; reflexivity.
Qed.

Lemma AES128Key_valid (key : list Z) :
  (16 <= List.length key)%nat -> types.AES128Key key = Ret (firstn 16 key).
Proof.
  intros H. unfold types.AES128Key.
  replace (len key <? 16) with false; [reflexivity |].
  symmetry. apply Z.ltb_ge. unfold len. lia.
Qed.

Lemma AES128Key_short (key : list Z) :
  (List.length key < 16)%nat ->
  types.AES128Key key = Panic "runtime error: cannot convert slice to array".
Proof.
  intros H. unfold types.AES128Key.
  replace (len key <? 16) with true; [reflexivity |].
  symmetry. apply Z.ltb_lt. unfold len. lia.
Qed.

Lemma MustDevAddr_valid (addr : list Z) :
  List.length addr = 4%nat -> types.MustDevAddr addr = Ret addr.
Proof. intros H. unfold types.MustDevAddr, len. rewrite H. reflexivity. Qed.

Lemma processFrame_valid_key (device : Node) (addr : list Z) (frameCnt fPort : Z)
    (ct : list Z) :
  List.length addr = 4%nat ->
  (16 <= List.length (AppSKey device))%nat ->
  exists t o,
    processFrame os_ReadFile aesEncryptBlock device addr frameCnt fPort ct
    = (EvDecryptUplink (firstn 16 (AppSKey device)) addr (wrap32 frameCnt) ct
         :: EvReadFile (DecoderPath device) :: t, o) /\
    ~ decryptionFailed o.
Proof.
  intros Ha Hk. unfold processFrame.
  rewrite (MustDevAddr_valid addr Ha), bind_lift_Ret.
  rewrite (AES128Key_valid _ Hk), bind_lift_Ret.
  rewrite bind_emit.
  unfold crypto.DecryptUplink.
  replace (List.length (firstn 16 (AppSKey device)) =? 16)%nat with true
    by (symmetry; apply Nat.eqb_eq; rewrite length_firstn; lia).
  destruct (decodePayload_shape fPort (DecoderPath device)
              (crypto.xorBytes ct
                 (crypto.keystream aesEncryptBlock (firstn 16 (AppSKey device)) 0 addr
                    (wrap32 frameCnt) (List.length ct))))
    as (t & o & Hd & Ho).
  rewrite Hd.
  destruct Ho as [Ho | (r & e & Ho & _)]; subst o; simpl.
  - eexists. eexists. split; [reflexivity |].
    intros [[c Hc] | [e Hc]]; discriminate.
  - destruct e as [e |]; simpl.
    + eexists. eexists. split; [reflexivity |].
      intros [[c Hc] | [e' Hc]]; discriminate.
    + eexists. eexists. split; [reflexivity |].
      intros [[c Hc] | [e' Hc]]; discriminate.
Qed.

Lemma processFrame_short_key (device : Node) (addr : list Z) (frameCnt fPort : Z)
    (ct : list Z) :
  List.length addr = 4%nat ->
  (List.length (AppSKey device) < 16)%nat ->
  processFrame os_ReadFile aesEncryptBlock device addr frameCnt fPort ct
  = ([], Panic "runtime error: cannot convert slice to array").
Proof.
  intros Ha Hk. unfold processFrame.
  rewrite (MustDevAddr_valid addr Ha), bind_lift_Ret.
  rewrite (AES128Key_short _ Hk). reflexivity.
Qed.

(** With a readable decoder file and a usable key, whatever the interpreter
    does, a returning [processFrame] returns the device name and no error. *)
Lemma processFrame_readable_no_error (device : Node) (addr : list Z) (frameCnt fPort : Z)
    (ct : list Z) (content : string) (t : list event) (name : string) (r : gomap)
    (e : option error) :
  os_ReadFile (DecoderPath device) = inl content ->
  List.length addr = 4%nat ->
  (16 <= List.length (AppSKey device))%nat ->
  processFrame os_ReadFile aesEncryptBlock device addr frameCnt fPort ct
  = (t, Ret (name, r, e)) ->
  name = Name device /\ e = None.
Proof.
  intros Hrf Ha Hk H. unfold processFrame in H.
  rewrite (MustDevAddr_valid addr Ha), bind_lift_Ret in H.
  rewrite (AES128Key_valid _ Hk), bind_lift_Ret in H.
  rewrite bind_emit in H.
  unfold crypto.DecryptUplink in H.
  replace (List.length (firstn 16 (AppSKey device)) =? 16)%nat with true in H
    by (symmetry; apply Nat.eqb_eq; rewrite length_firstn; lia).
  destruct (decodePayload os_ReadFile fPort (DecoderPath device) _)
    as [t1 [[r1 e1] | c |]] eqn:Hd; simpl in H; try discriminate.
  pose proof (decodePayload_readable _ _ _ _ _ _ _ Hrf Hd) as He1. subst e1.
  simpl in H. inversion H. split; reflexivity.
Qed.

End DecoderFacts.

(** *** The sample instances *)

Lemma sampleBlock_size (key block : list Z) :
  List.length (Sample.sampleBlock key block) = 16%nat.
Proof.
  unfold Sample.sampleBlock. apply firstn_length_le.
  rewrite length_app, repeat_length. lia.
Qed.

Lemma sample_registry_unknown (path : string) (a : list Z) :
  a <> [1; 2; 3; 4] -> unknownAddress (Sample.sampleGateway path) a.
Proof.
  intros Ha name dev [H | []]. inversion H; subst. simpl.
  intros Heq. apply Ha. symmetry. exact Heq.
Qed.

Lemma sample_registry_registered (path : string) :
  registered (Sample.sampleGateway path) [1; 2; 3; 4].
Proof.
  exists "sensor-1", (Sample.sampleDevice path).
  split; [left; reflexivity | reflexivity].
Qed.

(** ** The claims *)

(** C1 (defect of the code).  The claim: when the decode step of a frame
    addressed to a known device with a readable script fails, the pipeline
    returns a decode error and never a success.  The code instead returns a
    success: [decodePayload] drops the error of [convertBinaryToMap]. Here a
    script that throws gives the device name with a nil map and a nil error,
    and a script that returns the number 7 gives the device name with an
    empty map and a nil error. *)
Theorem failed_decode_returned_as_success :
  snd (Sample.run "throw.js" Sample.sampleFrame) = Ret ("sensor-1", None, None) /\
  snd (Sample.run "seven.js" Sample.sampleFrame) = Ret ("sensor-1", emptyMap, None).
Proof. split; vm_compute; reflexivity. Qed.

(** C2, as stated, fails: the empty input and an 11-byte frame of a
    registered device end in a run-time panic, and a 5-byte frame of an
    unregistered device returns a nil error; none returns an error value. *)
Lemma short_frames_return_no_error :
  len (@nil Z) < 12 /\
  Sample.run "ok.js" [] = ([], Panic "runtime error: slice bounds out of range") /\
  Sample.run "ok.js" [64; 4; 3; 2; 1; 0; 5; 0; 1; 0; 0]
    = ([], Panic "runtime error: slice bounds out of range") /\
  Sample.run "ok.js" [64; 9; 9; 9; 9]
    = ([EvInfof "received packet from unknown device, ignoring"], Ret ("", emptyMap, None)).
Proof. repeat split; vm_compute; reflexivity. Qed.

(** C2 (amended).  For every raw byte sequence (capacity equal to length)
    that is shorter than 5 bytes, or that carries the address of a
    registered device and is shorter than 13 bytes plus the options length,
    [parseDataUplink] ends in a Go run-time panic before any outside call:
    it has no malformed-frame error to return. *)
Theorem parseDataUplink_short_frame_panics {I : Interpreter}
    (os_ReadFile : string -> string + error)
    (aesEncryptBlock : list Z -> list Z -> list Z)
    (g : Gateway) (phy : list Z) :
  len phy < 5 \/ (registered g (rev (wireAddress phy)) /\ ~ longEnough phy) ->
  exists c, parseDataUplink os_ReadFile aesEncryptBlock g phy = ([], Panic c).
Proof.
  intros H.
  destruct (Z_lt_le_dec (len phy) 5) as [Hlt | Hge].
  - eexists. apply parseDataUplink_too_short. exact Hlt.
  - destruct H as [H | [Hreg Hshort]]; [lia |].
    destruct (matchDeviceAddr_registered _ _ Hreg) as [dev Hm].
    apply (parseDataUplink_known_short os_ReadFile aesEncryptBlock g phy dev Hge Hm Hshort).
Qed.

Lemma parseDataUplink_short_frame_panics_witness :
  exists c, Sample.run "ok.js" [64; 4; 3; 2; 1; 0; 5; 0; 1; 0; 0; 0] = ([], Panic c).
Proof.
  apply (parseDataUplink_short_frame_panics (I := Sample.sampleOtto) Sample.sampleReadFile Sample.sampleBlock
           (Sample.sampleGateway "ok.js") [64; 4; 3; 2; 1; 0; 5; 0; 1; 0; 0; 0]).
  right. split.
  - apply sample_registry_registered.
  - unfold longEnough. vm_compute. intros Hle. apply Hle. reflexivity.
Defined.

(** C3.  For every raw frame whose device-address bytes (bytes 1-4,
    reversed) match no device of the registry, [parseDataUplink] returns an
    empty readings mapping and a nil error; the only outside call is the
    informational log, so neither decryption nor decoding is attempted. *)
Theorem parseDataUplink_unknown_device_dropped {I : Interpreter}
    (os_ReadFile : string -> string + error)
    (aesEncryptBlock : list Z -> list Z -> list Z)
    (g : Gateway) (phy : list Z) :
  5 <= len phy ->
  unknownAddress g (rev (wireAddress phy)) ->
  parseDataUplink os_ReadFile aesEncryptBlock g phy
  = ([EvInfof "received packet from unknown device, ignoring"], Ret ("", emptyMap, None)).
Proof.
  intros Hlen Hun. unfold parseDataUplink.
  (* the address bytes are there, so the first slice expression returns *)
  rewrite (slice_address phy Hlen), bind_lift_Ret.
  (* the lookup misses, and the branch of the miss makes one log call *)
  unfold reverseByteArray.
  rewrite (matchDeviceAddr_unknown (rev (wireAddress phy)) (devices g) Hun).
  rewrite bind_emit. reflexivity.
Qed.

Lemma parseDataUplink_unknown_device_dropped_witness :
  Sample.run "ok.js" [64; 9; 9; 9; 9; 0; 5; 0; 1; 170; 187; 0; 0; 0; 0]
  = ([EvInfof "received packet from unknown device, ignoring"], Ret ("", emptyMap, None)).
Proof.
  apply (parseDataUplink_unknown_device_dropped (I := Sample.sampleOtto) Sample.sampleReadFile Sample.sampleBlock
           (Sample.sampleGateway "ok.js") [64; 9; 9; 9; 9; 0; 5; 0; 1; 170; 187; 0; 0; 0; 0]).
  - vm_compute. discriminate.
  - apply sample_registry_unknown. simpl. discriminate.
Defined.

(** C5.  For every decoder script whose execution produces a value that is
    not a string-keyed mapping (a number, a list, undefined, ...),
    [convertBinaryToMap] returns an empty readings mapping together with
    the error "decoder returned unexpected data type". *)
Theorem convertBinaryToMap_rejects_non_mapping {I : Interpreter}
    (fPort : Z) (script : string) (b : list Z) (t : list event) (v : goValue) :
  executeDecoder (String.append script entryCall)
    [("fPort", VUint8 fPort); ("bytes", VBytes b)] = (t, Ret (v, None)) ->
  ~ isMapping v ->
  convertBinaryToMap fPort script b
  = (t, Ret (emptyMap, Some (errors_New "decoder returned unexpected data type"))).
Proof.
  intros Hrun Hv. unfold convertBinaryToMap. rewrite Hrun.
  destruct v; simpl; rewrite ?app_nil_r; try reflexivity.
  exfalso. apply Hv. eexists. reflexivity.
Qed.

Lemma convertBinaryToMap_rejects_non_mapping_witness :
  exists t,
    convertBinaryToMap (I := Sample.sampleOtto) 1 "7;" [170; 185]
    = (t, Ret (emptyMap, Some (errors_New "decoder returned unexpected data type"))).
Proof.
  eexists.
  apply (convertBinaryToMap_rejects_non_mapping (I := Sample.sampleOtto)
           1 "7;" [170; 185] _ (VInt64 7)).
  - vm_compute. reflexivity.
  - intros [kvs H]. discriminate H.
Defined.

(** C6.  For every sufficiently long raw frame of a registered device,
    [parseDataUplink] works on the fields at these offsets: device address
    = bytes 1-4 reversed, options length = low 4 bits of byte 5, frame
    counter = little-endian uint16 of bytes 6-7, frame port = byte at index
    8 + options length, frame payload = the bytes from index 9 + options
    length up to, and without, the trailing 4-byte integrity tag. *)
Theorem parseDataUplink_field_offsets {I : Interpreter}
    (os_ReadFile : string -> string + error)
    (aesEncryptBlock : list Z -> list Z -> list Z)
    (g : Gateway) (phy : list Z) :
  Forall is_byte phy ->
  longEnough phy ->
  registered g (deviceAddress (frameFields phy)) ->
  exists dev,
    matchDeviceAddr (deviceAddress (frameFields phy)) (devices g) = (Some dev, None) /\
    parseDataUplink os_ReadFile aesEncryptBlock g phy
    = processFrame os_ReadFile aesEncryptBlock dev
        (deviceAddress (frameFields phy)) (frameCounter (frameFields phy))
        (framePort (frameFields phy)) (framePayload (frameFields phy)).
Proof.
  intros Hbytes Hlong Hreg.
  change (deviceAddress (frameFields phy)) with (rev (wireAddress phy)) in *.
  destruct (matchDeviceAddr_registered _ _ Hreg) as [dev Hm].
  exists dev. split; [exact Hm |].
  rewrite (parseDataUplink_known os_ReadFile aesEncryptBlock g phy dev Hm Hlong).
  f_equal.
  pose proof (byteAt_is_byte phy 6 Hbytes) as H6.
  pose proof (byteAt_is_byte phy 7 Hbytes) as H7.
  unfold is_byte in H6, H7.
  rewrite lor_shiftl_8 by exact H6.
  unfold wrap16, frameFields, frameCounter. apply Z.mod_small. lia.
Qed.

Lemma parseDataUplink_field_offsets_witness :
  exists dev,
    matchDeviceAddr [1; 2; 3; 4] (devices (Sample.sampleGateway "ok.js")) = (Some dev, None) /\
    Sample.run "ok.js" Sample.sampleFrame
    = processFrame (I := Sample.sampleOtto) Sample.sampleReadFile Sample.sampleBlock dev
        [1; 2; 3; 4] 5 1 [170; 187].
Proof.
  apply (parseDataUplink_field_offsets (I := Sample.sampleOtto)
           Sample.sampleReadFile Sample.sampleBlock
           (Sample.sampleGateway "ok.js") Sample.sampleFrame).
  - unfold Sample.sampleFrame. repeat constructor; unfold is_byte; lia.
  - unfold longEnough. vm_compute. discriminate.
  - apply sample_registry_registered.
Defined.

(** C7.  For every registered device and every ciphertext, the
    payload-decryption step fails only when the device's application
    session key has a malformed length; with a 16-byte key it succeeds on
    every ciphertext: the cipher is called and the pipeline goes on to the
    decode step, without a panic and without a decryption error. *)
Theorem decryption_fails_only_on_key_length {I : Interpreter}
    (os_ReadFile : string -> string + error)
    (aesEncryptBlock : list Z -> list Z -> list Z)
    (device : Node) (addr : list Z) (frameCnt fPort : Z) (ciphertext : list Z) :
  List.length addr = 4%nat ->
  (decryptionFailed
     (snd (processFrame os_ReadFile aesEncryptBlock device addr frameCnt fPort ciphertext)) ->
   List.length (AppSKey device) <> 16%nat) /\
  (List.length (AppSKey device) = 16%nat ->
   ~ decryptionFailed
       (snd (processFrame os_ReadFile aesEncryptBlock device addr frameCnt fPort ciphertext)) /\
   exists t,
     fst (processFrame os_ReadFile aesEncryptBlock device addr frameCnt fPort ciphertext)
     = EvDecryptUplink (AppSKey device) addr (wrap32 frameCnt) ciphertext
         :: EvReadFile (DecoderPath device) :: t).
Proof.
  intros Ha.
  assert (Hok : List.length (AppSKey device) = 16%nat ->
                ~ decryptionFailed
                    (snd (processFrame os_ReadFile aesEncryptBlock device addr frameCnt fPort
                            ciphertext)) /\
                exists t,
                  fst (processFrame os_ReadFile aesEncryptBlock device addr frameCnt fPort
                         ciphertext)
                  = EvDecryptUplink (AppSKey device) addr (wrap32 frameCnt) ciphertext
                      :: EvReadFile (DecoderPath device) :: t).
  { intros Hk.
    destruct (processFrame_valid_key os_ReadFile aesEncryptBlock device addr frameCnt fPort
                ciphertext Ha) as (t & o & Hp & Hnf); [lia |].
    rewrite firstn_all2 in Hp by lia.
    rewrite Hp. split; [exact Hnf |].
    exists t. reflexivity. }
  split; [| exact Hok].
  intros Hfail Hk. destruct (Hok Hk) as [Hnf _]. exact (Hnf Hfail).
Qed.

Lemma decryption_fails_only_on_key_length_witness :
  ~ decryptionFailed
      (snd (processFrame (I := Sample.sampleOtto) Sample.sampleReadFile Sample.sampleBlock
              (Sample.sampleDevice "ok.js") [1; 2; 3; 4] 5 1 [170; 187])).
Proof.
  apply (proj2 (decryption_fails_only_on_key_length (I := Sample.sampleOtto)
                  Sample.sampleReadFile Sample.sampleBlock
                  (Sample.sampleDevice "ok.js") [1; 2; 3; 4] 5 1 [170; 187] eq_refl)).
  reflexivity.
Defined.

(** C8.  For every 16-byte key, 4-byte reordered device address, frame
    counter and plaintext, decrypting with [crypto.DecryptUplink] the
    ciphertext produced by the cooperating uplink-encryption routine under
    the same key, address and counter yields the original plaintext. *)
Theorem decrypt_uplink_round_trip
    (aesEncryptBlock : list Z -> list Z -> list Z)
    (key addr : list Z) (fCnt : Z) (plaintext : list Z) :
  (forall k block, List.length (aesEncryptBlock k block) = 16%nat) ->
  List.length key = 16%nat ->
  List.length addr = 4%nat ->
  crypto.DecryptUplink aesEncryptBlock key addr fCnt
    (fst (crypto.EncryptUplink aesEncryptBlock key addr fCnt plaintext))
  = (plaintext, None).
Proof.
  intros Hblock Hk _. apply decrypt_encrypt; assumption.
Qed.

Lemma decrypt_uplink_round_trip_witness :
  crypto.DecryptUplink Sample.sampleBlock Sample.sampleKey [1; 2; 3; 4] 5
    (fst (crypto.EncryptUplink Sample.sampleBlock Sample.sampleKey [1; 2; 3; 4] 5
            [104; 105; 33]))
  = ([104; 105; 33], None).
Proof.
  apply (decrypt_uplink_round_trip Sample.sampleBlock Sample.sampleKey [1; 2; 3; 4] 5
           [104; 105; 33]).
  - exact sampleBlock_size.
  - reflexivity.
  - reflexivity.
Defined.

(** C9.  For every decoder script and every variable binding,
    [executeDecoder] lets no panic of the interpreter reach its caller: a
    panic raised while the interpreter is set up or while the script runs
    is recovered and returned as a non-nil error that carries the panic's
    message. *)
Theorem executeDecoder_converts_panics {I : Interpreter}
    (script : string) (vars : list (string * goValue)) :
  returnsOrDiverges (executeDecoder script vars) /\
  (forall t c,
     executeDecoderBody script vars = (t, Panic c) ->
     executeDecoder script vars = (t, Ret (VNil, Some (Errorf_s c)))).
Proof.
  split.
  - apply executeDecoder_recovered.
  - intros t c H. apply executeDecoder_on_panic. exact H.
Qed.

Lemma executeDecoder_converts_panics_witness :
  executeDecoder (I := Sample.sampleOtto) "crash" [("fPort", VUint8 1)]
  = ([EvOttoNew; EvOttoSet "fPort" (VUint8 1); EvGo "watchdog"; EvOttoRun "crash"],
     Ret (VNil, Some (Errorf_s "interpreter fault"))).
Proof.
  apply (proj2 (executeDecoder_converts_panics (I := Sample.sampleOtto)
                  "crash" [("fPort", VUint8 1)])).
  reflexivity.
Defined.

(** C10.  The registry lookup comes before any check of the frame's length
    or structure: for every raw byte sequence of length at least 5 whose
    bytes 1-4 (reversed) match no registered device, [parseDataUplink]
    returns an empty mapping and a nil error, also when the sequence is
    shorter than a valid frame. *)
Theorem registry_lookup_precedes_length_checks {I : Interpreter}
    (os_ReadFile : string -> string + error)
    (aesEncryptBlock : list Z -> list Z -> list Z)
    (g : Gateway) (phy : list Z) :
  5 <= len phy ->
  unknownAddress g (rev (wireAddress phy)) ->
  snd (parseDataUplink os_ReadFile aesEncryptBlock g phy) = Ret ("", emptyMap, None).
Proof.
  intros Hlen Hun.
  rewrite (parseDataUplink_unknown os_ReadFile aesEncryptBlock g phy Hlen Hun).
  reflexivity.
Qed.

Lemma registry_lookup_precedes_length_checks_witness :
  ~ longEnough [64; 9; 9; 9; 9] /\
  snd (Sample.run "ok.js" [64; 9; 9; 9; 9]) = Ret ("", emptyMap, None).
Proof.
  split.
  - unfold longEnough. vm_compute. intros Hle. apply Hle. reflexivity.
  - apply (registry_lookup_precedes_length_checks (I := Sample.sampleOtto)
             Sample.sampleReadFile Sample.sampleBlock
             (Sample.sampleGateway "ok.js") [64; 9; 9; 9; 9]).
    + vm_compute. discriminate.
    + apply sample_registry_unknown. simpl. discriminate.
Defined.

(** ** Further properties of the code *)

Import Facts.

(** *** The registry lookup *)

(** X1.  [matchDeviceAddr] returns a device exactly when that device is the
    first entry, in the order of the iteration, whose address equals the
    given bytes: the first match wins. *)
Theorem matchDeviceAddr_first_match (a : list Z) (devs : list (string * Node)) (dev : Node) :
  matchDeviceAddr a devs = (Some dev, None) <->
  exists pre name post,
    devs = pre ++ (name, dev) :: post /\ Addr dev = a /\
    (forall n d, In (n, d) pre -> Addr d <> a).
Proof.
  split.
  - induction devs as [| [name d] rest IH]; simpl; intros H.
    + discriminate.
    + unfold bytes_Equal in H.
      destruct (list_eq_dec Z.eq_dec a (Addr d)) as [Heq | Hne].
      * injection H as Hd. subst d.
        exists [], name, rest. split; [reflexivity |].
        split; [symmetry; exact Heq | intros n d []].
      * destruct (IH H) as (pre & nm & post & Hdevs & Ha & Hpre).
        exists ((name, d) :: pre), nm, post. subst rest.
        split; [reflexivity |]. split; [exact Ha |].
        intros n0 d0 [Hin | Hin].
        -- inversion Hin; subst. intros Hc. apply Hne. symmetry. exact Hc.
        -- apply (Hpre n0 d0 Hin).
  - intros (pre & name & post & Hdevs & Ha & Hpre). subst devs.
    induction pre as [| [n0 d0] pre IH]; simpl.
    + unfold bytes_Equal.
      destruct (list_eq_dec Z.eq_dec a (Addr dev)) as [_ | Hne]; [reflexivity |].
      exfalso. apply Hne. symmetry. exact Ha.
    + unfold bytes_Equal.
      destruct (list_eq_dec Z.eq_dec a (Addr d0)) as [Heq | _].
      * exfalso. apply (Hpre n0 d0); [left; reflexivity | symmetry; exact Heq].
      * apply IH. intros n d Hin. apply (Hpre n d). right. exact Hin.
Qed.

Lemma matchDeviceAddr_first_match_witness :
  matchDeviceAddr [1; 2; 3; 4]
    [("other", SampleNode.otaaNode); ("a", SampleNode.twin "a" "ok.js");
     ("b", SampleNode.twin "b" "seven.js")]
  = (Some (SampleNode.twin "a" "ok.js"), None).
Proof.
  apply (proj2 (matchDeviceAddr_first_match [1; 2; 3; 4]
                  [("other", SampleNode.otaaNode); ("a", SampleNode.twin "a" "ok.js");
                   ("b", SampleNode.twin "b" "seven.js")]
                  (SampleNode.twin "a" "ok.js"))).
  exists [("other", SampleNode.otaaNode)], "a", [("b", SampleNode.twin "b" "seven.js")].
  split; [reflexivity |]. split; [reflexivity |].
  intros n d [H | []]. inversion H; subst. simpl. discriminate.
Defined.

(** X2.  [matchDeviceAddr] reports "no match" exactly when no registered
    device has the address; otherwise it returns a device and a nil error,
    and never a nil device together with a nil error. *)
Theorem matchDeviceAddr_miss_iff_unknown (a : list Z) (devs : list (string * Node)) :
  (matchDeviceAddr a devs = (None, Some (errors_New "no match")) <->
   (forall name dev, In (name, dev) devs -> Addr dev <> a)) /\
  ((exists dev, matchDeviceAddr a devs = (Some dev, None)) \/
   matchDeviceAddr a devs = (None, Some (errors_New "no match"))).
Proof.
  assert (Hshape : (exists dev, matchDeviceAddr a devs = (Some dev, None) /\
                                Addr dev = a /\ exists name, In (name, dev) devs) \/
                   (matchDeviceAddr a devs = (None, Some (errors_New "no match")) /\
                    forall name dev, In (name, dev) devs -> Addr dev <> a)).
  { induction devs as [| [name d] rest IH]; simpl.
    - right. split; [reflexivity | intros n dv []].
    - unfold bytes_Equal.
      destruct (list_eq_dec Z.eq_dec a (Addr d)) as [Heq | Hne].
      + left. exists d. split; [reflexivity |].
        split; [symmetry; exact Heq | exists name; left; reflexivity].
      + destruct IH as [(dv & Hm & Ha & nm & Hin) | [Hm Hno]].
        * left. exists dv. split; [exact Hm |].
          split; [exact Ha | exists nm; right; exact Hin].
        * right. split; [exact Hm |].
          intros n dv [Hin | Hin].
          -- inversion Hin; subst. intros Hc. apply Hne. symmetry. exact Hc.
          -- apply (Hno n dv Hin). }
  split.
  - split.
    + intros Hmiss. destruct Hshape as [(dv & Hm & _) | [_ Hno]]; [| exact Hno].
      rewrite Hm in Hmiss. discriminate.
    + apply matchDeviceAddr_unknown.
  - destruct Hshape as [(dv & Hm & _) | [Hm _]].
    + left. exists dv. exact Hm.
    + right. exact Hm.
Qed.

Lemma matchDeviceAddr_miss_iff_unknown_witness :
  matchDeviceAddr [9; 9; 9; 9] (devices (Sample.sampleGateway "ok.js"))
  = (None, Some (errors_New "no match")).
Proof.
  apply (proj2 (proj1 (matchDeviceAddr_miss_iff_unknown [9; 9; 9; 9]
                         (devices (Sample.sampleGateway "ok.js"))))).
  intros name dev [H | []]. inversion H; subst. simpl. discriminate.
Defined.

(** *** The pipeline on long-enough frames *)

Section LongFrames.

Context {I : Interpreter}.
Variable os_ReadFile : string -> string + error.
Variable aesEncryptBlock : list Z -> list Z -> list Z.

Lemma parseDataUplink_long (g : Gateway) (phy : list Z) :
  longEnough phy ->
  parseDataUplink os_ReadFile aesEncryptBlock g phy
  = match matchDeviceAddr (rev (wireAddress phy)) (devices g) with
    | (_, Some _) =>
        ([EvInfof "received packet from unknown device, ignoring"], Ret ("", emptyMap, None))
    | (None, None) =>
        ([], Panic "runtime error: invalid memory address or nil pointer dereference")
    | (Some device, None) =>
        processFrame os_ReadFile aesEncryptBlock device (rev (wireAddress phy))
          (wrap16 (Z.lor (byteAt phy 6) (Z.shiftl (byteAt phy 7) 8)))
          (framePort (frameFields phy)) (framePayload (frameFields phy))
    end.
Proof.
  intros Hlong.
  assert (Hlen : 5 <= len phy).
  { unfold longEnough in Hlong. pose proof (optionsLength_range phy). lia. }
  destruct (matchDeviceAddr (rev (wireAddress phy)) (devices g)) as [[dev |] [e |]] eqn:Hm.
  - unfold parseDataUplink. rewrite (slice_address phy Hlen), bind_lift_Ret.
    unfold reverseByteArray. rewrite Hm. reflexivity.
  - apply parseDataUplink_known; assumption.
  - unfold parseDataUplink. rewrite (slice_address phy Hlen), bind_lift_Ret.
    unfold reverseByteArray. rewrite Hm. reflexivity.
  - unfold parseDataUplink. rewrite (slice_address phy Hlen), bind_lift_Ret.
    unfold reverseByteArray. rewrite Hm. reflexivity.
Qed.

(** What the pipeline reads of a frame [mhdr :: body ++ tag]. *)
Lemma frame_parts (mhdr : Z) (body tag : list Z) :
  List.length tag = 4%nat ->
  8 + nth 4 body 0 mod 16 <= len body ->
  let phy := mhdr :: body ++ tag in
  let n := Z.to_nat (nth 4 body 0 mod 16) in
  longEnough phy /\
  wireAddress phy = [nth 0 body 0; nth 1 body 0; nth 2 body 0; nth 3 body 0] /\
  byteAt phy 6 = nth 5 body 0 /\
  byteAt phy 7 = nth 6 body 0 /\
  framePort (frameFields phy) = nth (7 + n) body 0 /\
  framePayload (frameFields phy) = skipn (8 + n) body.
Proof.
  intros Htag Hbody phy n.
  assert (Hr : 0 <= nth 4 body 0 mod 16 < 16) by (apply Z.mod_pos_bound; lia).
  assert (Hb : (8 + n <= List.length body)%nat) by (unfold len in Hbody; lia).
  assert (Hnth : forall i, (i < List.length body)%nat -> byteAt phy (S i) = nth i body 0).
  { intros i Hi. unfold byteAt, phy. simpl. apply app_nth1. exact Hi. }
  assert (Hopt : optionsLength phy = nth 4 body 0 mod 16).
  { unfold optionsLength. rewrite (Hnth 4%nat) by lia. reflexivity. }
  split.
  { unfold longEnough. rewrite Hopt. unfold phy. rewrite len_cons.
    unfold len in *. rewrite length_app, Htag. lia. }
  split.
  { unfold wireAddress. rewrite !Hnth by lia. reflexivity. }
  split; [apply Hnth; lia |].
  split; [apply Hnth; lia |].
  unfold frameFields, framePort, framePayload. rewrite Hopt. fold n.
  split.
  - change (8 + n)%nat with (S (7 + n)). apply Hnth. lia.
  - change (9 + n)%nat with (S (8 + n)). unfold phy.
    cbn [List.length]. rewrite skipn_cons, length_app, Htag.
    rewrite skipn_app.
    replace (8 + n - List.length body)%nat with 0%nat by lia.
    rewrite skipn_O, firstn_app.
    replace (S (List.length body + 4) - 4 - S (8 + n) - List.length (skipn (8 + n) body))%nat
      with 0%nat by (rewrite length_skipn; lia).
    rewrite firstn_O, app_nil_r.
    apply firstn_all2. rewrite length_skipn. lia.
Qed.

End LongFrames.

(** X3.  [parseDataUplink] looks neither at the first byte of a frame (the
    message header) nor at its last four bytes (the integrity tag): two
    long-enough frames that differ only there have the same result and
    make the same outside calls. *)
Theorem parseDataUplink_ignores_header_and_tag {I : Interpreter}
    (os_ReadFile : string -> string + error)
    (aesEncryptBlock : list Z -> list Z -> list Z)
    (g : Gateway) (mhdr mhdr' : Z) (body tag tag' : list Z) :
  List.length tag = 4%nat ->
  List.length tag' = 4%nat ->
  8 + nth 4 body 0 mod 16 <= len body ->
  parseDataUplink os_ReadFile aesEncryptBlock g (mhdr :: body ++ tag)
  = parseDataUplink os_ReadFile aesEncryptBlock g (mhdr' :: body ++ tag').
Proof.
  intros Ht Ht' Hbody.
  destruct (frame_parts mhdr body tag Ht Hbody) as (Hl & Ha & H6 & H7 & Hp & Hpl).
  destruct (frame_parts mhdr' body tag' Ht' Hbody) as (Hl' & Ha' & H6' & H7' & Hp' & Hpl').
  rewrite (parseDataUplink_long os_ReadFile aesEncryptBlock g _ Hl).
  rewrite (parseDataUplink_long os_ReadFile aesEncryptBlock g _ Hl').
  rewrite Ha, Ha', H6, H6', H7, H7', Hp, Hp', Hpl, Hpl'.
  reflexivity.
Qed.

Lemma parseDataUplink_ignores_header_and_tag_witness :
  Sample.run "ok.js" (64 :: [4; 3; 2; 1; 0; 5; 0; 1; 170; 187] ++ [0; 0; 0; 0])
  = Sample.run "ok.js" (128 :: [4; 3; 2; 1; 0; 5; 0; 1; 170; 187] ++ [222; 173; 190; 239]).
Proof.
  apply (parseDataUplink_ignores_header_and_tag (I := Sample.sampleOtto)
           Sample.sampleReadFile Sample.sampleBlock (Sample.sampleGateway "ok.js")
           64 128 [4; 3; 2; 1; 0; 5; 0; 1; 170; 187] [0; 0; 0; 0] [222; 173; 190; 239]).
  - reflexivity.
  - reflexivity.
  - vm_compute. discriminate.
Defined.

(** *** Traces *)

Lemma bind_unfold {A B : Type} (m : M A) (f : A -> M B) :
  bind m f = match snd m with
             | Ret a => (fst m ++ fst (f a), snd (f a))
             | Panic c => (fst m, Panic c)
             | Diverge => (fst m, Diverge)
             end.
Proof.
  destruct m as [t [a | c |]]; simpl; try reflexivity.
  destruct (f a) as [t' r]. reflexivity.
Qed.

Lemma bind_lift {A B : Type} (o : outcome A) (f : A -> M B) :
  bind (lift o) f = match o with
                    | Ret a => f a
                    | Panic c => ([], Panic c)
                    | Diverge => ([], Diverge)
                    end.
Proof. destruct o as [a | c |]; [apply bind_lift_Ret | reflexivity | reflexivity]. Qed.

Lemma Forall_bind {A B : Type} (P : event -> Prop) (m : M A) (f : A -> M B) :
  Forall P (fst m) -> (forall a, Forall P (fst (f a))) -> Forall P (fst (bind m f)).
Proof.
  intros Hm Hf. rewrite bind_unfold.
  destruct (snd m) as [a | c |]; simpl; try exact Hm.
  apply Forall_app. split; [exact Hm | apply Hf].
Qed.

Lemma fst_deferRecover {A : Type} (h : string -> A) (body : M A) :
  fst (deferRecover h body) = fst body.
Proof. destruct body as [t [a | c |]]; reflexivity. Qed.

Lemma setEvents_otto (vars : list (string * goValue)) : Forall isOttoEvent (setEvents vars).
Proof. induction vars as [| [k v] vars IH]; simpl; constructor; simpl; trivial. Qed.

Lemma setEvents_no_run (vars : list (string * goValue)) (s : string) :
  ~ In (EvOttoRun s) (setEvents vars).
Proof.
  induction vars as [| [k v] vars IH]; simpl; intros H.
  - exact H.
  - destruct H as [H | H]; [discriminate | exact (IH H)].
Qed.

Section DecoderTraces.

Context {I : Interpreter}.
Variable os_ReadFile : string -> string + error.

Lemma setVars_cons (k : string) (v : goValue) (vars : list (string * goValue)) (m : vm) :
  setVars m ((k, v) :: vars)
  = ('(m', err) <- (emit (EvOttoSet k v) ;;; lift (vm_Set m k v)) ;;
     match err with
     | Some e => ret (inr e)
     | None => setVars m' vars
     end).
Proof. reflexivity. Qed.

(** The loop over the variables makes the [vm.Set] calls of a prefix of the
    list, and of the whole list when it runs to its end. *)
Lemma setVars_trace (vars : list (string * goValue)) (m : vm) :
  exists k,
    fst (setVars m vars) = setEvents (firstn k vars) /\
    (forall m', snd (setVars m vars) = Ret (inl m') -> fst (setVars m vars) = setEvents vars).
Proof.
  revert m. induction vars as [| [k v] vars IH]; intros m.
  - exists 0%nat. split; [reflexivity | intros m' _; reflexivity].
  - rewrite setVars_cons, bind_assoc, bind_emit, bind_lift. cbn [fst snd].
    destruct (vm_Set m k v) as [[m1 [e |]] | c |]; cbn [fst snd ret].
    + exists 1%nat. split; [reflexivity | intros m' H; discriminate].
    + destruct (IH m1) as (j & Hj & Hall).
      exists (S j). split.
      * simpl. rewrite Hj. reflexivity.
      * intros m' H. simpl. rewrite (Hall m' H). reflexivity.
    + exists 1%nat. split; [reflexivity | intros m' H; discriminate].
    + exists 1%nat. split; [reflexivity | intros m' H; discriminate].
Qed.

Lemma executeDecoderBody_cases (script : string) (vars : list (string * goValue)) :
  (exists k, fst (executeDecoderBody script vars) = EvOttoNew :: setEvents (firstn k vars)) \/
  (exists rest,
     fst (executeDecoderBody script vars)
     = EvOttoNew :: setEvents vars ++ EvGo "watchdog" :: EvOttoRun script :: rest /\
     (rest = [] \/ rest = [EvOttoExport])).
Proof.
  unfold executeDecoderBody.
  rewrite bind_assoc, bind_emit, bind_lift. cbn [fst snd].
  destruct otto_New as [m0 | c |]; cbn [fst snd];
    try (left; exists 0%nat; reflexivity).
  rewrite bind_lift.
  destruct (vm_SetStackDepthLimit (vm_makeInterrupt m0) 32) as [m2 | c |]; cbn [fst snd];
    try (left; exists 0%nat; reflexivity).
  rewrite bind_unfold.
  destruct (setVars_trace vars m2) as (k & Hk & Hall).
  destruct (snd (setVars m2 vars)) as [[m3 | e] | c |] eqn:Hs; cbn [fst snd].
  - right. rewrite (Hall m3 eq_refl).
    rewrite bind_emit, bind_assoc, bind_emit, bind_lift. cbn [fst snd].
    destruct (vm_Run m3 script) as [[val [e |]] | c |]; cbn [fst snd].
    + exists []. split; [reflexivity | left; reflexivity].
    + rewrite bind_emit. cbn [fst snd].
      exists [EvOttoExport]. split; [reflexivity | right; reflexivity].
    + exists []. split; [reflexivity | left; reflexivity].
    + exists []. split; [reflexivity | left; reflexivity].
  - left. exists k. unfold ret. cbn [fst]. rewrite app_nil_r, Hk. reflexivity.
  - left. exists k. rewrite Hk. reflexivity.
  - left. exists k. rewrite Hk. reflexivity.
Qed.

Lemma executeDecoder_otto_trace (script : string) (vars : list (string * goValue)) :
  Forall isOttoEvent (fst (executeDecoder script vars)).
Proof.
  unfold executeDecoder. rewrite fst_deferRecover.
  destruct (executeDecoderBody_cases script vars) as [(k & H) | (rest & H & Hrest)];
    rewrite H.
  - constructor; [exact Logic.I | apply setEvents_otto].
  - constructor; [exact Logic.I |].
    apply Forall_app. split; [apply setEvents_otto |].
    constructor; [exact Logic.I |]. constructor; [exact Logic.I |].
    destruct Hrest as [Hr | Hr]; subst rest; repeat constructor.
Qed.

Lemma convertBinaryToMap_otto_trace (fPort : Z) (script : string) (b : list Z) :
  Forall isOttoEvent (fst (convertBinaryToMap fPort script b)).
Proof.
  unfold convertBinaryToMap. apply Forall_bind.
  - apply executeDecoder_otto_trace.
  - intros [v [e |]]; [constructor |]. destruct v; constructor.
Qed.

Lemma decodePayload_trace (fPort : Z) (path : string) (data : list Z) :
  exists t, fst (decodePayload os_ReadFile fPort path data) = EvReadFile path :: t /\
            Forall isOttoEvent t.
Proof.
  unfold decodePayload. rewrite bind_emit. simpl fst.
  destruct (os_ReadFile path) as [content | e].
  - eexists. split; [reflexivity |].
    apply Forall_bind; [apply convertBinaryToMap_otto_trace |].
    intros [r e]. constructor.
  - exists []. split; [reflexivity | constructor].
Qed.

End DecoderTraces.

(** *** The decoder's calls *)

(** X4.  Whenever [executeDecoder] runs a script, it is the script it was
    given, run once, after a fresh interpreter was made and every variable
    was set in order, with the watchdog goroutine started right before the
    run; the only call that can follow is the export of the result. *)
Theorem executeDecoder_runs_after_setup {I : Interpreter}
    (script : string) (vars : list (string * goValue)) (s : string) :
  In (EvOttoRun s) (fst (executeDecoder script vars)) ->
  s = script /\
  exists rest,
    fst (executeDecoder script vars)
    = EvOttoNew :: setEvents vars ++ EvGo "watchdog" :: EvOttoRun script :: rest /\
    (rest = [] \/ rest = [EvOttoExport]).
Proof.
  unfold executeDecoder. rewrite fst_deferRecover. intros Hin.
  destruct (executeDecoderBody_cases script vars) as [(k & H) | (rest & H & Hrest)].
  - exfalso. rewrite H in Hin. destruct Hin as [Hin | Hin]; [discriminate |].
    exact (setEvents_no_run _ _ Hin).
  - split; [| exists rest; split; assumption].
    rewrite H in Hin. destruct Hin as [Hin | Hin]; [discriminate |].
    apply in_app_or in Hin. destruct Hin as [Hin | Hin].
    + exfalso. exact (setEvents_no_run _ _ Hin).
    + destruct Hin as [Hin | [Hin | Hin]]; [discriminate | |].
      * injection Hin as Hs. symmetry. exact Hs.
      * exfalso. destruct Hrest as [Hr | Hr]; subst rest.
        -- exact Hin.
        -- destruct Hin as [Hin | []]. discriminate.
Qed.

Lemma executeDecoder_runs_after_setup_witness :
  exists rest,
    fst (executeDecoder (I := Sample.sampleOtto) "7;" [("fPort", VUint8 1); ("bytes", VBytes [5])])
    = EvOttoNew :: setEvents [("fPort", VUint8 1); ("bytes", VBytes [5])]
        ++ EvGo "watchdog" :: EvOttoRun "7;" :: rest /\
    (rest = [] \/ rest = [EvOttoExport]).
Proof.
  apply (proj2 (executeDecoder_runs_after_setup (I := Sample.sampleOtto)
                  "7;" [("fPort", VUint8 1); ("bytes", VBytes [5])] "7;"
                  ltac:(vm_compute; tauto))).
Defined.

(** X5.  [decodePayload] first reads the decoder file of the given path and
    afterwards only talks to the interpreter: it never logs and never
    calls the cipher, and with an unreadable file it calls nothing else. *)
Theorem decodePayload_calls {I : Interpreter}
    (os_ReadFile : string -> string + error) (fPort : Z) (path : string) (data : list Z) :
  (exists t,
     fst (decodePayload os_ReadFile fPort path data) = EvReadFile path :: t /\
     Forall isOttoEvent t) /\
  (forall e, os_ReadFile path = inr e ->
     decodePayload os_ReadFile fPort path data = ([EvReadFile path], Ret (emptyMap, Some e))).
Proof.
  split.
  - apply decodePayload_trace.
  - intros e He. unfold decodePayload. rewrite bind_emit, He. reflexivity.
Qed.

Lemma decodePayload_calls_witness :
  decodePayload (I := Sample.sampleOtto) Sample.sampleReadFile 1 "missing.js" [1; 2]
  = ([EvReadFile "missing.js"],
     Ret (emptyMap, Some (lib_error "open: no such file or directory"))).
Proof.
  apply (proj2 (decodePayload_calls (I := Sample.sampleOtto)
                  Sample.sampleReadFile 1 "missing.js" [1; 2])).
  reflexivity.
Defined.

(** X6.  [convertBinaryToMap] returns a nil error exactly when the script,
    run with the entry call appended and the variables [fPort] and [bytes]
    set, gave a string-keyed mapping without error; it then returns that
    very mapping, which is never the nil map. *)
Theorem convertBinaryToMap_success_iff {I : Interpreter}
    (fPort : Z) (script : string) (b : list Z) (t : list event) (r : gomap) :
  convertBinaryToMap fPort script b = (t, Ret (r, None)) <->
  exists readings,
    r = Some readings /\
    executeDecoder (String.append script entryCall)
      [("fPort", VUint8 fPort); ("bytes", VBytes b)] = (t, Ret (VMap readings, None)).
Proof.
  unfold convertBinaryToMap.
  destruct (executeDecoder _ _) as [t0 [[v [e |]] | c |]] eqn:Hrun; cbn.
  - split; [intros H; discriminate | intros (kvs & _ & H); discriminate].
  - destruct v; cbn;
      try (split; [intros H; discriminate | intros (kvs & _ & H); discriminate]).
    rewrite app_nil_r. split.
    + intros H. injection H as Ht Hr. subst t r. exists kvs. split; reflexivity.
    + intros (readings & Hr & H). injection H as Ht Hk. subst. reflexivity.
  - split; [intros H; discriminate | intros (kvs & _ & H); discriminate].
  - split; [intros H; discriminate | intros (kvs & _ & H); discriminate].
Qed.

Lemma convertBinaryToMap_success_iff_witness :
  exists t,
    convertBinaryToMap (I := Sample.sampleOtto) 1 "function Decode() {}" [5]
    = (t, Ret (Some [("v", VInt64 1)], None)).
Proof.
  eexists.
  apply (proj2 (convertBinaryToMap_success_iff (I := Sample.sampleOtto)
                  1 "function Decode() {}" [5] _ (Some [("v", VInt64 1)]))).
  exists [("v", VInt64 1)]. split; [reflexivity | vm_compute; reflexivity].
Defined.

(** *** The pipeline as a whole *)

Lemma matchDeviceAddr_result (a : list Z) (devs : list (string * Node)) :
  (exists dev, matchDeviceAddr a devs = (Some dev, None)) \/
  matchDeviceAddr a devs = (None, Some (errors_New "no match")).
Proof.
  induction devs as [| [name d] rest IH]; simpl.
  - right. reflexivity.
  - destruct (bytes_Equal a (Addr d)); [left; exists d; reflexivity | exact IH].
Qed.

Lemma wireAddress_length (phy : list Z) : List.length (rev (wireAddress phy)) = 4%nat.
Proof. reflexivity. Qed.

Lemma wrap16_range (n : Z) : 0 <= wrap16 n < 65536.
Proof. unfold wrap16. apply Z.mod_pos_bound. lia. Qed.

Lemma isOttoEvent_decryptCallOk (t : list event) :
  Forall isOttoEvent t -> Forall decryptCallOk t.
Proof.
  intros H. eapply Forall_impl; [| exact H].
  intros e He. destruct e; simpl in *; trivial. contradiction.
Qed.

Section WholePipeline.

Context {I : Interpreter}.
Variable os_ReadFile : string -> string + error.
Variable aesEncryptBlock : list Z -> list Z -> list Z.

(** The three ways through [parseDataUplink]: a panic before any outside
    call, the drop of an unknown device's frame, or the processing of the
    parsed fields for the matched device. *)
Lemma parseDataUplink_cases (g : Gateway) (phy : list Z) :
  (exists c, parseDataUplink os_ReadFile aesEncryptBlock g phy = ([], Panic c)) \/
  (5 <= len phy /\
   matchDeviceAddr (rev (wireAddress phy)) (devices g) = (None, Some (errors_New "no match")) /\
   parseDataUplink os_ReadFile aesEncryptBlock g phy
   = ([EvInfof "received packet from unknown device, ignoring"], Ret ("", emptyMap, None))) \/
  (exists dev,
     matchDeviceAddr (rev (wireAddress phy)) (devices g) = (Some dev, None) /\
     longEnough phy /\
     parseDataUplink os_ReadFile aesEncryptBlock g phy
     = processFrame os_ReadFile aesEncryptBlock dev (rev (wireAddress phy))
         (wrap16 (Z.lor (byteAt phy 6) (Z.shiftl (byteAt phy 7) 8)))
         (framePort (frameFields phy)) (framePayload (frameFields phy))).
Proof.
  destruct (Z_lt_le_dec (len phy) 5) as [Hlt | Hge].
  { left. eexists. apply parseDataUplink_too_short. exact Hlt. }
  destruct (matchDeviceAddr_result (rev (wireAddress phy)) (devices g)) as [[dev Hm] | Hm].
  - destruct (Z_le_gt_dec (13 + optionsLength phy) (len phy)) as [Hlong | Hshort].
    + right. right. exists dev. split; [exact Hm |]. split; [exact Hlong |].
      apply parseDataUplink_known; assumption.
    + left. apply (parseDataUplink_known_short os_ReadFile aesEncryptBlock g phy dev Hge Hm).
      unfold longEnough. lia.
  - right. left. split; [exact Hge |]. split; [exact Hm |].
    unfold parseDataUplink. rewrite (slice_address phy Hge), bind_lift_Ret.
    unfold reverseByteArray. rewrite Hm. reflexivity.
Qed.

Lemma processFrame_calls_ok (device : Node) (addr : list Z) (frameCnt fPort : Z)
    (ct : list Z) :
  List.length addr = 4%nat ->
  0 <= frameCnt < 65536 ->
  Forall decryptCallOk
    (fst (processFrame os_ReadFile aesEncryptBlock device addr frameCnt fPort ct)).
Proof.
  intros Ha Hc. unfold processFrame.
  rewrite (MustDevAddr_valid addr Ha), bind_lift_Ret.
  destruct (Nat.lt_ge_cases (List.length (AppSKey device)) 16) as [Hk | Hk].
  { rewrite (AES128Key_short _ Hk). constructor. }
  rewrite (AES128Key_valid _ Hk), bind_lift_Ret, bind_emit. cbn [fst].
  constructor.
  - cbn [decryptCallOk]. split; [rewrite length_firstn; lia |]. split; [exact Ha |].
    unfold wrap32. rewrite Z.mod_small; lia.
  - destruct (crypto.DecryptUplink _ _ _ _ _) as [pt [e |]]; [constructor |].
    apply Forall_bind.
    + destruct (decodePayload_trace os_ReadFile fPort (DecoderPath device) pt)
        as (t & Ht & Hotto).
      rewrite Ht. constructor; [exact Logic.I | apply isOttoEvent_decryptCallOk; exact Hotto].
    + intros [r [e |]]; constructor.
Qed.

Lemma processFrame_error_shape (device : Node) (addr : list Z) (frameCnt fPort : Z)
    (ct : list Z) (t : list event) (name : string) (r : gomap) (e : error) :
  processFrame os_ReadFile aesEncryptBlock device addr frameCnt fPort ct
  = (t, Ret (name, r, Some e)) ->
  name = "" /\ r = emptyMap /\
  exists e0, e = Errorf_w "error while decrypting uplink message: " e0 \/
             e = Errorf_w "Error decoding payload: " e0.
Proof.
  unfold processFrame. rewrite !bind_lift.
  destruct (types.MustDevAddr addr) as [dAddr | c |]; try discriminate.
  rewrite bind_lift.
  destruct (types.AES128Key (AppSKey device)) as [key | c |]; try discriminate.
  rewrite bind_emit. cbn [fst snd].
  destruct (crypto.DecryptUplink _ _ _ _ _) as [pt [e1 |]].
  - intros H. injection H as _ Hn Hr He. subst.
    split; [reflexivity |]. split; [reflexivity |]. exists e1. left. reflexivity.
  - rewrite bind_unfold.
    destruct (snd (decodePayload os_ReadFile fPort (DecoderPath device) pt))
      as [[r1 [e2 |]] | c |]; cbn [fst snd]; intros H; try discriminate.
    injection H as _ Hn Hr He. subst.
    split; [reflexivity |]. split; [reflexivity |]. exists e2. right. reflexivity.
Qed.

End WholePipeline.

(** X7.  Every call of the cipher that [parseDataUplink] makes, for any
    input whatsoever, passes a 16-byte key, a 4-byte address and a frame
    counter below 2^16 (the two counter bytes of the frame, never more). *)
Theorem parseDataUplink_cipher_calls {I : Interpreter}
    (os_ReadFile : string -> string + error)
    (aesEncryptBlock : list Z -> list Z -> list Z)
    (g : Gateway) (phy : list Z) :
  Forall decryptCallOk (fst (parseDataUplink os_ReadFile aesEncryptBlock g phy)).
Proof.
  destruct (parseDataUplink_cases os_ReadFile aesEncryptBlock g phy)
    as [[c H] | [(_ & _ & H) | (dev & _ & _ & H)]]; rewrite H.
  - constructor.
  - repeat constructor.
  - apply processFrame_calls_ok; [apply wireAddress_length |].
    unfold wrap16. apply Z.mod_pos_bound. lia.
Qed.

(** X8.  [parseDataUplink] returns no partial result: whenever it returns
    a non-nil error, the device name is empty and the mapping is the empty
    map, and the error is one of its two wrapped errors. *)
Theorem parseDataUplink_error_result {I : Interpreter}
    (os_ReadFile : string -> string + error)
    (aesEncryptBlock : list Z -> list Z -> list Z)
    (g : Gateway) (phy : list Z) (t : list event) (name : string) (r : gomap) (e : error) :
  parseDataUplink os_ReadFile aesEncryptBlock g phy = (t, Ret (name, r, Some e)) ->
  name = "" /\ r = emptyMap /\
  exists e0, e = Errorf_w "error while decrypting uplink message: " e0 \/
             e = Errorf_w "Error decoding payload: " e0.
Proof.
  intros Hres.
  destruct (parseDataUplink_cases os_ReadFile aesEncryptBlock g phy)
    as [[c H] | [(_ & _ & H) | (dev & _ & _ & H)]]; rewrite H in Hres.
  - discriminate.
  - discriminate.
  - exact (processFrame_error_shape os_ReadFile aesEncryptBlock _ _ _ _ _ _ _ _ _ Hres).
Qed.

Lemma parseDataUplink_error_result_witness :
  "" = "" /\ emptyMap = emptyMap /\
  exists e0,
    Errorf_w "Error decoding payload: " (lib_error "open: no such file or directory")
    = Errorf_w "error while decrypting uplink message: " e0 \/
    Errorf_w "Error decoding payload: " (lib_error "open: no such file or directory")
    = Errorf_w "Error decoding payload: " e0.
Proof.
  apply (parseDataUplink_error_result (I := Sample.sampleOtto)
           Sample.sampleReadFile Sample.sampleBlock (Sample.sampleGateway "missing.js")
           Sample.sampleFrame
           [EvDecryptUplink Sample.sampleKey [1; 2; 3; 4] 5 [170; 187];
            EvReadFile "missing.js"]).
  vm_compute. reflexivity.
Defined.

(** X9.  If every registered device has an application session key of at
    least 16 bytes, [parseDataUplink] does not panic on any long-enough
    frame, whatever the file system and the interpreter do. *)
Theorem parseDataUplink_no_panic {I : Interpreter}
    (os_ReadFile : string -> string + error)
    (aesEncryptBlock : list Z -> list Z -> list Z)
    (g : Gateway) (phy : list Z) :
  longEnough phy ->
  (forall name dev, In (name, dev) (devices g) -> (16 <= List.length (AppSKey dev))%nat) ->
  returnsOrDiverges (parseDataUplink os_ReadFile aesEncryptBlock g phy).
Proof.
  intros Hlong Hkeys.
  rewrite (parseDataUplink_long os_ReadFile aesEncryptBlock g phy Hlong).
  destruct (matchDeviceAddr_result (rev (wireAddress phy)) (devices g)) as [[dev Hm] | Hm];
    rewrite Hm.
  - destruct (matchDeviceAddr_found _ _ _ _ Hm) as (_ & _ & name & Hin).
    destruct (processFrame_valid_key os_ReadFile aesEncryptBlock dev (rev (wireAddress phy))
                (wrap16 (Z.lor (byteAt phy 6) (Z.shiftl (byteAt phy 7) 8)))
                (framePort (frameFields phy)) (framePayload (frameFields phy))
                (wireAddress_length phy) (Hkeys name dev Hin)) as (t & o & Hp & Hnf).
    rewrite Hp. unfold returnsOrDiverges. cbn [snd].
    destruct o as [a | c |].
    + left. exists a. reflexivity.
    + exfalso. apply Hnf. left. exists c. reflexivity.
    + right. reflexivity.
  - left. eexists. reflexivity.
Qed.

Lemma parseDataUplink_no_panic_witness :
  returnsOrDiverges (Sample.run "crash.js" Sample.sampleFrame).
Proof.
  apply (parseDataUplink_no_panic (I := Sample.sampleOtto)
           Sample.sampleReadFile Sample.sampleBlock (Sample.sampleGateway "crash.js")
           Sample.sampleFrame).
  - unfold longEnough. vm_compute. discriminate.
  - intros name dev [H | []]. inversion H; subst. simpl. lia.
Defined.

(** X10.  A registered device whose application session key has fewer than
    16 bytes makes [parseDataUplink] panic on every long-enough frame that
    carries its address, before the cipher, the file system or the
    interpreter is called. *)
Theorem parseDataUplink_short_key_panics {I : Interpreter}
    (os_ReadFile : string -> string + error)
    (aesEncryptBlock : list Z -> list Z -> list Z)
    (g : Gateway) (phy : list Z) (dev : Node) :
  longEnough phy ->
  matchDeviceAddr (rev (wireAddress phy)) (devices g) = (Some dev, None) ->
  (List.length (AppSKey dev) < 16)%nat ->
  parseDataUplink os_ReadFile aesEncryptBlock g phy
  = ([], Panic "runtime error: cannot convert slice to array").
Proof.
  intros Hlong Hm Hk.
  rewrite (parseDataUplink_known os_ReadFile aesEncryptBlock g phy dev Hm Hlong).
  apply processFrame_short_key; [apply wireAddress_length | exact Hk].
Qed.

Lemma parseDataUplink_short_key_panics_witness :
  parseDataUplink (I := Sample.sampleOtto) Sample.sampleReadFile Sample.sampleBlock
    {| devices := [("short", {| Name := "short"; DecoderPath := "ok.js"; nwkSKey := [];
                                AppSKey := [1; 2; 3]; AppKey := []; Addr := [1; 2; 3; 4];
                                DevEui := [] |})] |}
    Sample.sampleFrame
  = ([], Panic "runtime error: cannot convert slice to array").
Proof.
  apply (parseDataUplink_short_key_panics (I := Sample.sampleOtto)
           Sample.sampleReadFile Sample.sampleBlock _ Sample.sampleFrame
           {| Name := "short"; DecoderPath := "ok.js"; nwkSKey := [];
              AppSKey := [1; 2; 3]; AppKey := []; Addr := [1; 2; 3; 4]; DevEui := [] |}).
  - unfold longEnough. vm_compute. discriminate.
  - reflexivity.
  - simpl. lia.
Defined.

(** X11.  The successful path: for a long-enough frame of a registered
    device with a key of at least 16 bytes and a readable decoder file,
    when the script, run on the frame's port byte and on the payload
    decrypted with the first 16 key bytes, the reversed address and the
    16-bit counter, gives a mapping, [parseDataUplink] returns the device's
    name, that mapping and a nil error. *)
Theorem parseDataUplink_success {I : Interpreter}
    (os_ReadFile : string -> string + error)
    (aesEncryptBlock : list Z -> list Z -> list Z)
    (g : Gateway) (phy : list Z) (dev : Node) (content : string)
    (t : list event) (readings : list (string * goValue)) :
  let addr := rev (wireAddress phy) in
  let key := firstn 16 (AppSKey dev) in
  let fCnt := wrap32 (wrap16 (Z.lor (byteAt phy 6) (Z.shiftl (byteAt phy 7) 8))) in
  let payload := framePayload (frameFields phy) in
  let plaintext := fst (crypto.DecryptUplink aesEncryptBlock key addr fCnt payload) in
  longEnough phy ->
  matchDeviceAddr addr (devices g) = (Some dev, None) ->
  (16 <= List.length (AppSKey dev))%nat ->
  os_ReadFile (DecoderPath dev) = inl content ->
  executeDecoder (String.append content entryCall)
    [("fPort", VUint8 (framePort (frameFields phy))); ("bytes", VBytes plaintext)]
  = (t, Ret (VMap readings, None)) ->
  parseDataUplink os_ReadFile aesEncryptBlock g phy
  = (EvDecryptUplink key addr fCnt payload :: EvReadFile (DecoderPath dev) :: t,
     Ret (Name dev, Some readings, None)).
Proof.
  intros addr key fCnt payload plaintext Hlong Hm Hk Hrf Hrun.
  rewrite (parseDataUplink_known os_ReadFile aesEncryptBlock g phy dev Hm Hlong).
  unfold processFrame.
  rewrite (MustDevAddr_valid _ (wireAddress_length phy)), bind_lift_Ret.
  rewrite (AES128Key_valid _ Hk), bind_lift_Ret, bind_emit.
  fold addr key fCnt payload.
  unfold plaintext, crypto.DecryptUplink in Hrun.
  unfold crypto.DecryptUplink.
  replace (List.length key =? 16)%nat with true in Hrun |- *
    by (symmetry; apply Nat.eqb_eq; unfold key; rewrite length_firstn; lia).
  cbn [fst] in Hrun.
  unfold decodePayload. rewrite bind_emit, Hrf.
  unfold convertBinaryToMap. rewrite Hrun.
  cbn. rewrite !app_nil_r. reflexivity.
Qed.

Lemma parseDataUplink_success_witness :
  exists t,
    Sample.run "ok.js" Sample.sampleFrame
    = (EvDecryptUplink Sample.sampleKey [1; 2; 3; 4] 5 [170; 187] :: EvReadFile "ok.js" :: t,
       Ret ("sensor-1", Some [("v", VInt64 1)], None)).
Proof.
  eexists.
  apply (parseDataUplink_success (I := Sample.sampleOtto)
           Sample.sampleReadFile Sample.sampleBlock (Sample.sampleGateway "ok.js")
           Sample.sampleFrame (Sample.sampleDevice "ok.js")
           "function Decode(fPort, bytes) { return {v: 1}; }").
  - unfold longEnough. vm_compute. discriminate.
  - reflexivity.
  - simpl. lia.
  - reflexivity.
  - vm_compute. reflexivity.
Defined.

(** *** Configuration and construction of a node *)

Lemma DecodeString_length_aux (n : nat) :
  forall (s : string) (bs : list Z),
    (String.length s <= n)%nat ->
    hex.DecodeString s = (bs, None) ->
    String.length s = (2 * List.length bs)%nat.
Proof.
  induction n as [| n IH]; intros s bs Hn H.
  - destruct s as [| p s']; [| simpl in Hn; lia].
    simpl in H. injection H as Hbs. subst bs. reflexivity.
  - destruct s as [| p [| q rest]].
    + simpl in H. injection H as Hbs. subst bs. reflexivity.
    + simpl in H. destruct (hex.fromHexChar p); discriminate.
    + simpl in H.
      destruct (hex.fromHexChar p) as [a |]; [| discriminate].
      destruct (hex.fromHexChar q) as [b |]; [| discriminate].
      destruct (hex.DecodeString rest) as [bs' err] eqn:Hrest.
      injection H as Hbs Herr. subst bs err.
      simpl in Hn. simpl.
      assert (Hle : (String.length rest <= n)%nat) by lia.
      rewrite (IH rest bs' Hle Hrest). lia.
Qed.

Lemma DecodeString_length (s : string) (bs : list Z) :
  hex.DecodeString s = (bs, None) -> String.length s = (2 * List.length bs)%nat.
Proof. apply (DecodeString_length_aux (String.length s)). lia. Qed.

Ltac validate_cases :=
  repeat match goal with
         | |- context [String.eqb ?a ?b] => destruct (String.eqb_spec a b)
         | |- context [Nat.eqb ?a ?b] => destruct (Nat.eqb_spec a b)
         end;
  cbn [negb orb fst snd].

Ltac empty_field :=
  match goal with
  | H : ?f = "", L : String.length ?f = _ |- _ => rewrite H in L; simpl in L; discriminate L
  end.

Section ValidationFacts.

Variable NewConfigValidationError : string -> error -> error.

Lemma Validate_sound (conf : nodecfg.Config) (path : string) :
  snd (nodecfg.Validate NewConfigValidationError conf path) = None -> validConfig conf.
Proof.
  unfold nodecfg.Validate, nodecfg.validateABPAttributes, nodecfg.validateOTAAAttributes,
    validConfig.
  validate_cases; intros H; try discriminate H;
    (split; [assumption |]);
    first [ left; repeat split; assumption
          | right; split; [left; assumption | split; assumption]
          | right; split; [right; assumption | split; assumption] ].
Qed.

End ValidationFacts.

(** X12.  [Validate] never names a dependency, and it accepts a
    configuration exactly when the decoder path is not empty and either the
    join type is ABP with a 32-character application session key, a
    32-character network session key and an 8-character device address, or
    the join type is OTAA or empty with a 16-character device EUI and a
    32-character application key. *)
Theorem Validate_accepts_iff (NewConfigValidationError : string -> error -> error)
    (conf : nodecfg.Config) (path : string) :
  fst (nodecfg.Validate NewConfigValidationError conf path) = [] /\
  (snd (nodecfg.Validate NewConfigValidationError conf path) = None <-> validConfig conf).
Proof.
  split; [| split].
  - unfold nodecfg.Validate, nodecfg.validateABPAttributes, nodecfg.validateOTAAAttributes.
    validate_cases; reflexivity.
  - unfold nodecfg.Validate, nodecfg.validateABPAttributes, nodecfg.validateOTAAAttributes,
      validConfig.
    validate_cases; intros H; try discriminate H;
      (split; [assumption |]);
      first [ left; repeat split; assumption
            | right; split; [left; assumption | split; assumption]
            | right; split; [right; assumption | split; assumption] ].
  - unfold validConfig.
    intros (Hd & [(Hj & H1 & H2 & H3) | ([Hj | Hj] & H1 & H2)]);
      unfold nodecfg.Validate, nodecfg.validateABPAttributes,
        nodecfg.validateOTAAAttributes;
      validate_cases; try reflexivity; try contradiction; try congruence;
      try empty_field.
Qed.

Lemma Validate_accepts_iff_witness :
  snd (nodecfg.Validate SampleNode.validationError SampleNode.abpConfig "node") = None.
Proof.
  apply (proj2 (proj2 (Validate_accepts_iff SampleNode.validationError
                         SampleNode.abpConfig "node"))).
  unfold validConfig. simpl. split; [discriminate |].
  left. repeat split; reflexivity.
Defined.

Section ConstructorFacts.

Variable deps : nodecfg.Dependencies.
Variable conf : nodecfg.ResourceConfig.

(** What a returned node went through: the configuration converted, the
    gateway was found, the keys decoded, and the gateway took the
    registration of this very node. *)
Lemma newNode_returns (t : list nodecfg.ctorEvent) (n : Node) (err : option error) :
  nodecfg.newNode deps conf = (t, (Some n, err)) ->
  exists cfg gw,
    nodecfg.NativeConfig conf = inl cfg /\
    deps (nodecfg.GatewayName cfg) = inl gw /\
    nodecfg.decodeKeys cfg
      {| Name := nodecfg.ResourceName conf; DecoderPath := nodecfg.DecoderPath cfg;
         nwkSKey := []; AppSKey := []; AppKey := []; Addr := []; DevEui := [] |} = inl n /\
    nodecfg.DoCommand gw [("register_device", n)] = None /\
    err = None /\
    t = [nodecfg.EvPrintln "doing do command";
         nodecfg.EvDoCommand [("register_device", n)]].
Proof.
  unfold nodecfg.newNode.
  destruct (nodecfg.NativeConfig conf) as [cfg | e0]; [| intros H; discriminate].
  destruct (deps (nodecfg.GatewayName cfg)) as [gw | e1] eqn:Hg; [| intros H; discriminate].
  destruct (nodecfg.decodeKeys cfg _) as [n' | e2] eqn:Hk; [| intros H; discriminate].
  destruct (nodecfg.DoCommand gw [("register_device", n')]) as [e3 |] eqn:Hc;
    intros H; [discriminate |].
  injection H as Ht Hn He. subst n' err t.
  exists cfg, gw. repeat split; try reflexivity; assumption.
Qed.

Lemma decodeKeys_abp (cfg : nodecfg.Config) (n0 n : Node) :
  nodecfg.JoinType cfg = "ABP" ->
  nodecfg.decodeKeys cfg n0 = inl n ->
  hex.DecodeString (nodecfg.DevAddr cfg) = (Addr n, None) /\
  hex.DecodeString (nodecfg.AppSKey cfg) = (AppSKey n, None) /\
  Name n = Name n0 /\ DecoderPath n = DecoderPath n0.
Proof.
  intros Hj. unfold nodecfg.decodeKeys. rewrite Hj. cbn [String.eqb Ascii.eqb Bool.eqb orb].
  destruct (hex.DecodeString (nodecfg.DevAddr cfg)) as [a [e |]]; [intros H; discriminate |].
  destruct (hex.DecodeString (nodecfg.AppSKey cfg)) as [k [e |]]; [intros H; discriminate |].
  intros H. injection H as Hn. subst n. repeat split; reflexivity.
Qed.

Lemma decodeKeys_otaa (cfg : nodecfg.Config) (n0 n : Node) :
  nodecfg.JoinType cfg = "OTAA" \/ nodecfg.JoinType cfg = "" ->
  nodecfg.decodeKeys cfg n0 = inl n ->
  Addr n = Addr n0 /\ AppSKey n = AppSKey n0.
Proof.
  intros Hj. unfold nodecfg.decodeKeys.
  destruct Hj as [Hj | Hj]; rewrite Hj; cbn [String.eqb Ascii.eqb Bool.eqb orb];
    (destruct (hex.DecodeString (nodecfg.AppKey cfg)) as [a [e |]]; [intros H; discriminate |]);
    (destruct (hex.DecodeString (nodecfg.DevEUI cfg)) as [k [e |]]; [intros H; discriminate |]);
    intros H; injection H as Hn; subst n; split; reflexivity.
Qed.

End ConstructorFacts.

(** X13.  A node that [newNode] returns for an ABP configuration which
    [Validate] accepted has a 4-byte address and a 16-byte application
    session key, carries the resource's name and the configured, non-empty
    decoder path, and has no network session key set. *)
Theorem newNode_abp_key_lengths (NewConfigValidationError : string -> error -> error)
    (deps : nodecfg.Dependencies) (conf : nodecfg.ResourceConfig) (cfg : nodecfg.Config)
    (path : string) (t : list nodecfg.ctorEvent) (n : Node) (err : option error) :
  nodecfg.NativeConfig conf = inl cfg ->
  nodecfg.JoinType cfg = "ABP" ->
  snd (nodecfg.Validate NewConfigValidationError cfg path) = None ->
  nodecfg.newNode deps conf = (t, (Some n, err)) ->
  List.length (Addr n) = 4%nat /\
  List.length (AppSKey n) = 16%nat /\
  Name n = nodecfg.ResourceName conf /\
  DecoderPath n = nodecfg.DecoderPath cfg /\
  DecoderPath n <> "" /\
  nwkSKey n = [].
Proof.
  intros Hcfg Hj Hval Hnew.
  destruct (newNode_returns deps conf t n err Hnew) as (cfg' & gw & Hc & _ & Hk & _).
  rewrite Hcfg in Hc. injection Hc as Hc. subst cfg'.
  destruct (Validate_sound _ _ _ Hval) as (Hd & [(_ & Hs & _ & Ha) | ([Ho | Ho] & _)]);
    [| rewrite Hj in Ho; discriminate Ho | rewrite Hj in Ho; discriminate Ho].
  pose proof Hk as Hk'.
  unfold nodecfg.decodeKeys in Hk'. rewrite Hj in Hk'.
  cbn [String.eqb Ascii.eqb Bool.eqb orb] in Hk'.
  destruct (decodeKeys_abp cfg _ n Hj Hk) as (Haddr & Hkey & Hname & Hpath).
  apply DecodeString_length in Haddr, Hkey.
  destruct (hex.DecodeString (nodecfg.DevAddr cfg)) as [a [e |]]; [discriminate Hk' |].
  destruct (hex.DecodeString (nodecfg.AppSKey cfg)) as [k [e |]]; [discriminate Hk' |].
  injection Hk' as Hn.
  split; [lia |]. split; [lia |]. split; [exact Hname |]. split; [exact Hpath |].
  split; [rewrite Hpath; exact Hd |]. subst n. reflexivity.
Qed.

Lemma newNode_abp_key_lengths_witness :
  List.length (Addr (Sample.sampleDevice "ok.js")) = 4%nat /\
  List.length (AppSKey (Sample.sampleDevice "ok.js")) = 16%nat /\
  Name (Sample.sampleDevice "ok.js") = "sensor-1" /\
  DecoderPath (Sample.sampleDevice "ok.js") = "ok.js" /\
  DecoderPath (Sample.sampleDevice "ok.js") <> "" /\
  nwkSKey (Sample.sampleDevice "ok.js") = [].
Proof.
  apply (newNode_abp_key_lengths SampleNode.validationError SampleNode.deps
           (SampleNode.resourceConfig SampleNode.abpConfig) SampleNode.abpConfig "node"
           [nodecfg.EvPrintln "doing do command";
            nodecfg.EvDoCommand [("register_device", Sample.sampleDevice "ok.js")]]
           (Sample.sampleDevice "ok.js") None).
  - reflexivity.
  - reflexivity.
  - vm_compute. reflexivity.
  - vm_compute. reflexivity.
Defined.

(** X14.  [newNode] returns either a node with a nil error or no node with
    an error.  A node is returned only after the gateway found under the
    configured name accepted the command [register_device] for this very
    node, which is the one [DoCommand] call made. *)
Theorem newNode_registers_before_returning
    (deps : nodecfg.Dependencies) (conf : nodecfg.ResourceConfig) :
  (forall t n err,
     nodecfg.newNode deps conf = (t, (Some n, err)) ->
     err = None /\
     t = [nodecfg.EvPrintln "doing do command";
          nodecfg.EvDoCommand [("register_device", n)]] /\
     exists cfg gw,
       nodecfg.NativeConfig conf = inl cfg /\
       deps (nodecfg.GatewayName cfg) = inl gw /\
       nodecfg.DoCommand gw [("register_device", n)] = None) /\
  (forall t err, nodecfg.newNode deps conf = (t, (None, err)) -> err <> None).
Proof.
  split.
  - intros t n err H.
    destruct (newNode_returns deps conf t n err H) as (cfg & gw & Hc & Hg & _ & Hd & He & Ht).
    split; [exact He |]. split; [exact Ht |].
    exists cfg, gw. split; [exact Hc |]. split; [exact Hg | exact Hd].
  - intros t err. unfold nodecfg.newNode.
    destruct (nodecfg.NativeConfig conf) as [cfg | e0].
    + destruct (deps (nodecfg.GatewayName cfg)) as [gw | e1].
      * destruct (nodecfg.decodeKeys cfg _) as [n' | e2].
        -- destruct (nodecfg.DoCommand gw _) as [e3 |]; intros H;
             injection H as _ He; [subst err; discriminate | discriminate He].
        -- intros H. injection H as _ He. subst err. discriminate.
      * intros H. injection H as _ He. subst err. discriminate.
    + intros H. injection H as _ He. subst err. discriminate.
Qed.

Lemma newNode_registers_before_returning_witness :
  (None : option error) = None /\
  [nodecfg.EvPrintln "doing do command";
   nodecfg.EvDoCommand [("register_device", Sample.sampleDevice "ok.js")]]
  = [nodecfg.EvPrintln "doing do command";
     nodecfg.EvDoCommand [("register_device", Sample.sampleDevice "ok.js")]] /\
  exists cfg gw,
    nodecfg.NativeConfig (SampleNode.resourceConfig SampleNode.abpConfig) = inl cfg /\
    SampleNode.deps (nodecfg.GatewayName cfg) = inl gw /\
    nodecfg.DoCommand gw [("register_device", Sample.sampleDevice "ok.js")] = None.
Proof.
  apply (proj1 (newNode_registers_before_returning SampleNode.deps
                  (SampleNode.resourceConfig SampleNode.abpConfig))).
  vm_compute. reflexivity.
Defined.

(** X15.  A node that [newNode] returns for an OTAA (or empty) join type
    has no device address and no application session key, so it is never
    matched: a gateway whose registered devices all carry that empty
    address drops every frame of at least 5 bytes as unknown. *)
Theorem newNode_otaa_never_addressed {I : Interpreter}
    (os_ReadFile : string -> string + error)
    (aesEncryptBlock : list Z -> list Z -> list Z)
    (deps : nodecfg.Dependencies) (conf : nodecfg.ResourceConfig) (cfg : nodecfg.Config)
    (t : list nodecfg.ctorEvent) (n : Node) (err : option error) :
  nodecfg.NativeConfig conf = inl cfg ->
  nodecfg.JoinType cfg = "OTAA" \/ nodecfg.JoinType cfg = "" ->
  nodecfg.newNode deps conf = (t, (Some n, err)) ->
  Addr n = [] /\ AppSKey n = [] /\
  forall (g : Gateway) (phy : list Z),
    5 <= len phy ->
    (forall name dev, In (name, dev) (devices g) -> Addr dev = Addr n) ->
    parseDataUplink os_ReadFile aesEncryptBlock g phy
    = ([EvInfof "received packet from unknown device, ignoring"], Ret ("", emptyMap, None)).
Proof.
  intros Hcfg Hj Hnew.
  destruct (newNode_returns deps conf t n err Hnew) as (cfg' & gw & Hc & _ & Hk & _).
  rewrite Hcfg in Hc. injection Hc as Hc. subst cfg'.
  destruct (decodeKeys_otaa cfg _ n Hj Hk) as [Ha Hs]. cbn [Addr AppSKey] in Ha, Hs.
  split; [exact Ha |]. split; [exact Hs |].
  intros g phy Hlen Hall.
  apply parseDataUplink_unknown; [exact Hlen |].
  intros name dev Hin Heq. rewrite (Hall name dev Hin), Ha in Heq. discriminate Heq.
Qed.

Lemma newNode_otaa_never_addressed_witness :
  exists n,
    snd (nodecfg.newNode SampleNode.deps (SampleNode.resourceConfig SampleNode.otaaConfig))
    = (Some n, None) /\
    Addr n = [] /\ AppSKey n = [] /\
    parseDataUplink (I := Sample.sampleOtto) Sample.sampleReadFile Sample.sampleBlock
      {| devices := [("sensor-1", n)] |} Sample.sampleFrame
    = ([EvInfof "received packet from unknown device, ignoring"], Ret ("", emptyMap, None)).
Proof.
  eexists. split; [vm_compute; reflexivity |].
  destruct (newNode_otaa_never_addressed (I := Sample.sampleOtto)
              Sample.sampleReadFile Sample.sampleBlock SampleNode.deps
              (SampleNode.resourceConfig SampleNode.otaaConfig) SampleNode.otaaConfig
              _ _ None eq_refl (or_intror eq_refl) eq_refl) as (Ha & Hs & Hdrop).
  split; [exact Ha |]. split; [exact Hs |].
  apply Hdrop.
  - vm_compute. discriminate.
  - intros name dev [H | []]. inversion H; subst. reflexivity.
Defined.

(** X16.  Validation, construction and the pipeline together: when a node
    that [newNode] returned for an ABP configuration accepted by [Validate]
    is the device matched by a long-enough frame, [parseDataUplink] does
    not panic; it calls the cipher with the node's whole 16-byte key and
    goes on to read the configured decoder file. *)
Theorem validated_abp_node_is_processed {I : Interpreter}
    (os_ReadFile : string -> string + error)
    (aesEncryptBlock : list Z -> list Z -> list Z)
    (NewConfigValidationError : string -> error -> error)
    (deps : nodecfg.Dependencies) (conf : nodecfg.ResourceConfig) (cfg : nodecfg.Config)
    (path : string) (t : list nodecfg.ctorEvent) (n : Node) (err : option error)
    (g : Gateway) (phy : list Z) :
  nodecfg.NativeConfig conf = inl cfg ->
  nodecfg.JoinType cfg = "ABP" ->
  snd (nodecfg.Validate NewConfigValidationError cfg path) = None ->
  nodecfg.newNode deps conf = (t, (Some n, err)) ->
  longEnough phy ->
  matchDeviceAddr (rev (wireAddress phy)) (devices g) = (Some n, None) ->
  returnsOrDiverges (parseDataUplink os_ReadFile aesEncryptBlock g phy) /\
  exists t',
    fst (parseDataUplink os_ReadFile aesEncryptBlock g phy)
    = EvDecryptUplink (AppSKey n) (rev (wireAddress phy))
        (wrap32 (wrap16 (Z.lor (byteAt phy 6) (Z.shiftl (byteAt phy 7) 8))))
        (framePayload (frameFields phy))
      :: EvReadFile (nodecfg.DecoderPath cfg) :: t'.
Proof.
  intros Hcfg Hj Hval Hnew Hlong Hm.
  destruct (newNode_returns deps conf t n err Hnew) as (cfg' & gw & Hc & _ & Hk & _).
  rewrite Hcfg in Hc. injection Hc as Hc. subst cfg'.
  destruct (Validate_sound _ _ _ Hval) as (_ & [(_ & Hs & _) | ([Ho | Ho] & _)]);
    [| rewrite Hj in Ho; discriminate Ho | rewrite Hj in Ho; discriminate Ho].
  destruct (decodeKeys_abp cfg _ n Hj Hk) as (_ & Hkey & _ & Hpath).
  apply DecodeString_length in Hkey. cbn [DecoderPath] in Hpath.
  assert (Hlen : List.length (AppSKey n) = 16%nat) by lia.
  rewrite (parseDataUplink_known os_ReadFile aesEncryptBlock g phy n Hm Hlong).
  destruct (processFrame_valid_key os_ReadFile aesEncryptBlock n (rev (wireAddress phy))
              (wrap16 (Z.lor (byteAt phy 6) (Z.shiftl (byteAt phy 7) 8)))
              (framePort (frameFields phy)) (framePayload (frameFields phy))
              (wireAddress_length phy)) as (t' & o & Hp & Hnf); [lia |].
  rewrite firstn_all2 in Hp by lia. rewrite Hp, Hpath. cbn [fst snd]. split.
  - unfold returnsOrDiverges. cbn [snd]. destruct o as [a | c |].
    + left. exists a. reflexivity.
    + exfalso. apply Hnf. left. exists c. reflexivity.
    + right. reflexivity.
  - exists t'. reflexivity.
Qed.

Lemma validated_abp_node_is_processed_witness :
  returnsOrDiverges (Sample.run "ok.js" Sample.sampleFrame) /\
  exists t',
    fst (Sample.run "ok.js" Sample.sampleFrame)
    = EvDecryptUplink Sample.sampleKey [1; 2; 3; 4] 5 [170; 187] :: EvReadFile "ok.js" :: t'.
Proof.
  apply (validated_abp_node_is_processed (I := Sample.sampleOtto)
           Sample.sampleReadFile Sample.sampleBlock SampleNode.validationError
           SampleNode.deps (SampleNode.resourceConfig SampleNode.abpConfig)
           SampleNode.abpConfig "node"
           [nodecfg.EvPrintln "doing do command";
            nodecfg.EvDoCommand [("register_device", Sample.sampleDevice "ok.js")]]
           (Sample.sampleDevice "ok.js") None
           (Sample.sampleGateway "ok.js") Sample.sampleFrame).
  - reflexivity.
  - reflexivity.
  - vm_compute. reflexivity.
  - vm_compute. reflexivity.
  - unfold longEnough. vm_compute. discriminate.
  - reflexivity.
Defined.
